(** * luigi.contrib.vertica: the Vertica target and the bulk-load task

    A shallow embedding of [luigi/contrib/vertica.py]: the marker-table
    target [VerticaTarget] and the template task [CopyToTable], with the
    properties of the load protocol proved over every behaviour of the
    database driver.

    Conventions of the embedding.
    - A Python [str] is a list of code points ([text]); [bytes] is a list of
      [Byte.byte].  [str.encode('utf-8')] is the strict encoder of Python 3.
    - The database driver ([vertica_python]) is outside the repository.  It
      is a type class [Driver] over an abstract world [W]: each call is a
      transition of the world that returns a value or raises.  Every call
      the program makes is also appended to an event log.
    - Python exceptions are values of [exn]; a computation is a function
      from the state to a result and the state reached, so the effects made
      before a [raise] stay visible after it.
    - [connection.cursor()] returns the cursor owned by the connection and
      has no effect of its own; a cursor is identified with its connection.
    - Leaving a [with] block calls the driver's [__exit__], which never
      suppresses the exception in flight and does not raise.
    - Calls to [logger] are left out: they touch nothing the program reads. *)

From Stdlib Require Import List Bool Arith NArith ZArith Lia String Ascii DecimalString.
From Stdlib.Strings Require Import Byte.
Import ListNotations.

Set Implicit Arguments.
Set Warnings "-register-all,-abstract-large-number".

(** ** Python values *)

Module Py.

#[local] Open Scope N_scope.

(** A [str]: the sequence of its code points. *)
Definition text := list N.

Definition bytes := list byte.

(** An ASCII literal as a [str]. *)
Definition txt (s : string) : text :=
  map N_of_ascii (list_ascii_of_string s).

Definition text_eqb (a b : text) : bool :=
  if list_eq_dec N.eq_dec a b then true else false.

(** [sep.join(parts)] *)
Fixpoint join (sep : text) (parts : list text) : text :=
  match parts with
  | [] => []
  | [p] => p
  | p :: rest => p ++ sep ++ join sep rest
  end.

(** [c in s] for a one-character [c]. *)
Definition contains (c : N) (s : text) : bool := existsb (N.eqb c) s.

(** [s.split(c)] for a one-character separator: the pieces between the
    occurrences of [c]; always at least one piece. *)
Fixpoint split (c : N) (s : text) : list text :=
  match s with
  | [] => [[]]
  | x :: rest =>
      if N.eqb x c then [] :: split c rest
      else match split c rest with
           | [] => [[x]]
           | p :: ps => (x :: p) :: ps
           end
  end.

Definition colon : N := 58.
Definition newline : N := 10.

(** *** UTF-8 *)

Definition byte_of (n : N) : byte :=
  match Byte.of_N n with Some b => b | None => Byte.x00 end.

(** A Unicode scalar value: a code point that is not a surrogate. *)
Definition is_scalar (c : N) : bool :=
  ((c <? 0xD800) || (0xE000 <=? c)) && (c <? 0x110000).

Definition utf8_char (c : N) : bytes :=
  if c <? 0x80 then [byte_of c]
  else if c <? 0x800 then
    [byte_of (0xC0 + c / 64); byte_of (0x80 + c mod 64)]
  else if c <? 0x10000 then
    [byte_of (0xE0 + c / 4096); byte_of (0x80 + (c / 64) mod 64);
     byte_of (0x80 + c mod 64)]
  else
    [byte_of (0xF0 + c / 262144); byte_of (0x80 + (c / 4096) mod 64);
     byte_of (0x80 + (c / 64) mod 64); byte_of (0x80 + c mod 64)].

Definition utf8 (s : text) : bytes := flat_map utf8_char s.

Definition is_cont (b : byte) : bool :=
  (0x80 <=? Byte.to_N b) && (Byte.to_N b <? 0xC0).

Definition low6 (b : byte) : N := Byte.to_N b - 0x80.

(** The strict decoder: rejects truncated and overlong forms, surrogates and
    code points above U+10FFFF. *)
Fixpoint utf8_decode (bs : bytes) : option text :=
  match bs with
  | [] => Some []
  | b1 :: r1 =>
      let n1 := Byte.to_N b1 in
      if n1 <? 0x80 then option_map (cons n1) (utf8_decode r1)
      else if n1 <? 0xC0 then None
      else if n1 <? 0xE0 then
        match r1 with
        | b2 :: r2 =>
            let c := (n1 - 0xC0) * 64 + low6 b2 in
            if is_cont b2 && (0x80 <=? c)
            then option_map (cons c) (utf8_decode r2) else None
        | _ => None
        end
      else if n1 <? 0xF0 then
        match r1 with
        | b2 :: b3 :: r3 =>
            let c := (n1 - 0xE0) * 4096 + low6 b2 * 64 + low6 b3 in
            if is_cont b2 && is_cont b3 && (0x800 <=? c) && is_scalar c
            then option_map (cons c) (utf8_decode r3) else None
        | _ => None
        end
      else if n1 <? 0xF8 then
        match r1 with
        | b2 :: b3 :: b4 :: r4 =>
            let c := (n1 - 0xF0) * 262144 + low6 b2 * 4096
                     + low6 b3 * 64 + low6 b4 in
            if is_cont b2 && is_cont b3 && is_cont b4
               && (0x10000 <=? c) && is_scalar c
            then option_map (cons c) (utf8_decode r4) else None
        | _ => None
        end
      else None
  end.

(** [s.encode('utf-8')]: fails on a code point that is not a scalar value
    ([UnicodeEncodeError]). *)
Definition encode (s : text) : option bytes :=
  if forallb is_scalar s then Some (utf8 s) else None.

End Py.

Import Py.

(** An element of a [columns] list, by the operations the program applies
    to it: [isinstance(_, str)], [len] and [_[0]]. *)
Inductive PyObj :=
| OStr (s : text)              (* a str *)
| OSeq (items : list PyObj)    (* a tuple or a list *)
| OAtom.                       (* an object with neither [len] nor [_[0]] *)

(** The values a row holds: [==] (used by [in]) and [six.text_type]. *)
Class PyValue (V : Type) := {
  py_eq : V -> V -> bool;
  text_type : V -> text
}.

(** ** Exceptions, results, state *)

Inductive exn :=
| MissingRelation                 (* vertica_python.errors.MissingRelation *)
| DuplicateObject                 (* vertica_python.errors.DuplicateObject *)
| DatabaseError (code : N)        (* any other error of the driver *)
| AssertionError
| Exception_ (msg : string)       (* Exception(msg) *)
| ExceptionFmt (fmt : string) (arg : PyObj)   (* Exception(fmt % (arg,)) *)
| ValueError
| TypeError
| IndexError
| UnicodeEncodeError.

Inductive Result (A : Type) :=
| Ok (a : A)
| Raise (e : exn).

Arguments Ok {A} a.
Arguments Raise {A} e.

Definition is_raise {A} (r : Result A) : bool :=
  match r with Ok _ => false | Raise _ => true end.

(** A connection handle, as the driver hands it out. *)
Definition Conn := nat.

Inductive port_val :=
| PortNone
| PortInt (n : N)
| PortStr (s : text).

Record conn_params := {
  cp_host : text;
  cp_port : port_val;
  cp_database : text;
  cp_user : text;
  cp_password : text
}.

(** A value bound to a named placeholder of a statement. *)
Inductive param :=
| PStr (s : text)
| PTime (t : N).

Definition row := list N.

(** Every call that leaves the process, in the order it is made. *)
Inductive event :=
| EvConnect (p : conn_params)
| EvExit (c : Conn) (failing : bool)
| EvExecute (c : Conn) (sql : text) (params : list (text * param))
| EvFetchone (c : Conn)
| EvCommit (c : Conn)
| EvReset (c : Conn)
| EvCopy (c : Conn) (sql : text) (data : bytes)
| EvInitCopy (c : Conn)
| EvPostCopy (c : Conn)
| EvCreateTable (c : Conn)
| EvWrite (data : bytes).

(** What lies outside the module: the driver, the clock, the configuration.
    [drv_copy] is handed what is left to read of the file and tells how many
    bytes it read. *)
Class Env (W : Type) := {
  cfg_marker_table : text;
  drv_connect : conn_params -> W -> Result Conn * W;
  drv_exit : Conn -> bool -> W -> W;
  drv_execute : Conn -> text -> list (text * param) -> W -> Result unit * W;
  drv_fetchone : Conn -> W -> Result (option row) * W;
  drv_commit : Conn -> W -> Result unit * W;
  drv_reset : Conn -> W -> Result unit * W;
  drv_copy : Conn -> text -> bytes -> W -> (Result unit * nat) * W;
  clock_now : W -> N
}.

Record state (W : Type) := {
  world : W;
  log : list event;
  tmp_file : bytes;      (* the content of the temporary file *)
  tmp_pos : nat          (* its read position *)
}.

Definition set_world {W} (w : W) (s : state W) : state W :=
  {| world := w; log := log s; tmp_file := tmp_file s; tmp_pos := tmp_pos s |}.

Definition add_log {W} (e : event) (s : state W) : state W :=
  {| world := world s; log := log s ++ [e];
     tmp_file := tmp_file s; tmp_pos := tmp_pos s |}.

Definition set_tmp {W} (content : bytes) (pos : nat) (s : state W) : state W :=
  {| world := world s; log := log s; tmp_file := content; tmp_pos := pos |}.

(** ** The monad of the embedding *)

Definition M (W A : Type) := state W -> Result A * state W.

Definition ret {W A} (a : A) : M W A := fun s => (Ok a, s).

Definition raise {W A} (e : exn) : M W A := fun s => (Raise e, s).

Definition bind {W A B} (m : M W A) (k : A -> M W B) : M W B :=
  fun s =>
    match m s with
    | (Ok a, s1) => k a s1
    | (Raise e, s1) => (Raise e, s1)
    end.

Notation "x <- c1 ;; c2" := (bind c1 (fun x => c2))
  (at level 61, c1 at next level, right associativity).
Notation "c1 ;; c2" := (bind c1 (fun _ => c2))
  (at level 61, right associativity).

Definition lift {W A} (r : Result A) : M W A := fun s => (r, s).

(** [try: body / except: handler e / else: orelse] *)
Definition try_except_else {W A B} (body : M W A) (handler : exn -> M W B)
    (orelse : A -> M W B) : M W B :=
  fun s =>
    match body s with
    | (Ok a, s1) => orelse a s1
    | (Raise e, s1) => handler e s1
    end.

Definition try_except {W A} (body : M W A) (handler : exn -> M W A) : M W A :=
  try_except_else body handler ret.

(** A call of the outside: logged, then made. *)
Definition call {W A} (ev : event) (f : W -> Result A * W) : M W A :=
  fun s =>
    let '(r, w) := f (world s) in (r, set_world w (add_log ev s)).

Section Driver.
Context {W : Type} {env : Env W}.

Definition vertica_connect (p : conn_params) : M W Conn :=
  call (EvConnect p) (drv_connect p).

Definition cursor_execute (c : Conn) (sql : text)
    (params : list (text * param)) : M W unit :=
  call (EvExecute c sql params) (drv_execute c sql params).

Definition cursor_fetchone (c : Conn) : M W (option row) :=
  call (EvFetchone c) (drv_fetchone c).

Definition connection_commit (c : Conn) : M W unit :=
  call (EvCommit c) (drv_commit c).

Definition reset_connection (c : Conn) : M W unit :=
  call (EvReset c) (drv_reset c).

(** [cursor.copy(sql, file)]: the driver reads [file] from its position. *)
Definition cursor_copy (c : Conn) (sql : text) : M W unit :=
  fun s =>
    let data := skipn (tmp_pos s) (tmp_file s) in
    let '((r, n), w) := drv_copy c sql data (world s) in
    (r, set_tmp (tmp_file s) (tmp_pos s + Nat.min n (List.length data))
          (set_world w (add_log (EvCopy c sql data) s))).

Definition datetime_now : M W N := fun s => (Ok (clock_now (world s)), s).

(** [with mk as c: body c], for a connection. *)
Definition with_connection {A} (mk : M W Conn) (body : Conn -> M W A) : M W A :=
  c <- mk ;;
  fun s =>
    let '(r, s1) := body c s in
    (r, set_world (drv_exit c (is_raise r) (world s1))
          (add_log (EvExit c (is_raise r)) s1)).

(** [tmp_file.write(data)] *)
Definition tmp_write (data : bytes) : M W unit :=
  fun s =>
    let content := tmp_file s ++ data in
    (Ok tt, add_log (EvWrite data) (set_tmp content (List.length content) s)).

(** [tmp_file.seek(pos)] *)
Definition tmp_seek (pos : nat) : M W unit :=
  fun s => (Ok tt, set_tmp (tmp_file s) pos s).

(** [with tempfile.TemporaryFile(...) as tmp_file: body]: the file is
    created empty and deleted on the way out. *)
Definition with_tempfile {A} (body : M W A) : M W A :=
  fun s =>
    let '(r, s1) := body (set_tmp [] 0 s) in (r, set_tmp [] 0 s1).

End Driver.

(** The result of a DDL statement once a duplicate-object error is
    swallowed. *)
Definition tolerate_duplicate (r : Result unit) : Result unit :=
  match r with
  | Raise DuplicateObject => Ok tt
  | _ => r
  end.

(** ** Classes of events *)

(** The calls [touch] makes to record a marker row: statements and commits. *)
Definition is_marker_event (ev : event) : bool :=
  match ev with
  | EvExecute _ _ _ | EvCommit _ => true
  | _ => false
  end.

(** The calls of one copy attempt. *)
Definition is_copy_event (ev : event) : bool :=
  match ev with
  | EvInitCopy _ | EvCopy _ _ _ | EvPostCopy _ => true
  | _ => false
  end.

(** [m] only appends to the log, and only events that satisfy [P]. *)
Definition emits {W A} (P : event -> Prop) (m : M W A) : Prop :=
  forall s, exists l, log (snd (m s)) = log s ++ l /\ Forall P l.

(** ** class VerticaTarget *)

Module VerticaTarget.

Record t := {
  marker_table : text;          (* class attribute *)
  use_db_timestamps : bool;     (* class attribute *)
  host : text;
  port : port_val;
  database : text;
  user : text;
  password : text;
  table : text;
  update_id : text
}.

Section Methods.
Context {W : Type} {env : Env W}.

(** [__init__]: the class attributes are [marker_table], read from the
    configuration, and [use_db_timestamps = True].  The tuple assignment
    [self.host, self.port = host.split(':')] needs exactly two pieces. *)
Definition init (host database user password table update_id : text)
    (port : port_val) : Result t :=
  let make h p :=
    {| marker_table := cfg_marker_table; use_db_timestamps := true;
       host := h; port := p; database := database; user := user;
       password := password; table := table; update_id := update_id |} in
  if contains colon host then
    match split colon host with
    | [h; p] => Ok (make h (PortStr p))
    | _ => Raise ValueError
    end
  else Ok (make host port).

Definition params (self : t) : conn_params :=
  {| cp_host := host self; cp_port := port self;
     cp_database := database self; cp_user := user self;
     cp_password := password self |}.

Definition connect (self : t) : M W Conn :=
  vertica_connect (params self).

Definition select_sql (self : t) : text :=
  txt "SELECT 1 FROM " ++ marker_table self
    ++ txt " WHERE update_id = :uid LIMIT 1".

(** [if connection is None: connection = self.connect()] *)
Definition or_connect (self : t) (connection : option Conn) : M W Conn :=
  match connection with
  | None => connect self
  | Some c => ret c
  end.

Definition exists_ (self : t) (connection : option Conn) : M W bool :=
  connection <- or_connect self connection ;;
  let cursor := connection in
  row <- try_except
           (cursor_execute cursor (select_sql self)
              [(txt "uid", PStr (update_id self))] ;;
            cursor_fetchone cursor)
           (fun e => match e with
                     | MissingRelation => ret None
                     | _ => raise e
                     end) ;;
  ret (match row with Some _ => true | None => false end).

Definition create_sql (self : t) : text :=
  if use_db_timestamps self then
    txt "CREATE TABLE " ++ marker_table self
      ++ txt " (update_id VARCHAR PRIMARY KEY, target_table VARCHAR, inserted TIMESTAMP DEFAULT NOW())"
  else
    txt "CREATE TABLE " ++ marker_table self
      ++ txt " (update_id VARCHAR PRIMARY KEY, target_table VARCHAR, inserted TIMESTAMP)".

Definition create_marker_table (self : t) : M W unit :=
  with_connection (connect self) (fun connection =>
    let cursor := connection in
    let sql := create_sql self in
    try_except (cursor_execute cursor sql [])
      (fun e => match e with
                | DuplicateObject => ret tt
                | _ => raise e
                end)).

Definition insert_sql (self : t) : text :=
  if use_db_timestamps self then
    txt "INSERT INTO " ++ marker_table self
      ++ txt " (update_id, target_table) VALUES (:uid, :table)"
  else
    txt "INSERT INTO " ++ marker_table self
      ++ txt " (update_id, target_table, inserted) VALUES (:uid, :table, :time)".

(** The values of one marker row, as [touch] binds them; [now] is read only
    when the timestamp is supplied by the client. *)
Definition marker_row (self : t) (now : N) : list (text * param) :=
  if use_db_timestamps self then
    [(txt "uid", PStr (update_id self)); (txt "table", PStr (table self))]
  else
    [(txt "uid", PStr (update_id self)); (txt "table", PStr (table self));
     (txt "time", PTime now)].

Definition touch (self : t) (connection : option Conn) : M W unit :=
  create_marker_table self ;;
  connection <- or_connect self connection ;;
  (if use_db_timestamps self then
     cursor_execute connection (insert_sql self)
       [(txt "uid", PStr (update_id self)); (txt "table", PStr (table self))]
   else
     now <- datetime_now ;;
     cursor_execute connection (insert_sql self)
       [(txt "uid", PStr (update_id self)); (txt "table", PStr (table self));
        (txt "time", PTime now)]) ;;
  connection_commit connection ;;
  marked <- exists_ self (Some connection) ;;
  if marked then ret tt else raise AssertionError.

End Methods.

End VerticaTarget.

(** ** Operations on the elements of [columns] *)

Definition is_str (o : PyObj) : bool :=
  match o with OStr _ => true | _ => false end.

(** [len(o)] *)
Definition py_len (o : PyObj) : Result nat :=
  match o with
  | OStr s => Ok (List.length s)
  | OSeq items => Ok (List.length items)
  | OAtom => Raise TypeError
  end.

(** [o[0]] *)
Definition item0 (o : PyObj) : Result PyObj :=
  match o with
  | OStr [] => Raise IndexError
  | OStr (c :: _) => Ok (OStr [c])
  | OSeq [] => Raise IndexError
  | OSeq (x :: _) => Ok x
  | OAtom => Raise TypeError
  end.

(** [[f(x) for x in l]], stopping at the first exception. *)
Fixpoint map_result {A B} (f : A -> Result B) (l : list A) : Result (list B) :=
  match l with
  | [] => Ok []
  | x :: rest =>
      match f x with
      | Raise e => Raise e
      | Ok y =>
          match map_result f rest with
          | Raise e => Raise e
          | Ok ys => Ok (y :: ys)
          end
      end
  end.

(** [sep.join(items)]: every item has to be a str. *)
Definition py_join (sep : text) (items : list PyObj) : Result text :=
  match map_result (fun o => match o with
                             | OStr s => Ok s
                             | _ => Raise TypeError
                             end) items with
  | Ok parts => Ok (join sep parts)
  | Raise e => Raise e
  end.

(** ** class CopyToTable *)

Module CopyToTable.

(** The attributes and the overridable hooks the task inherits from
    [rdbms.CopyToTable]; [rows] is the finite sequence the generator
    yields. *)
Record t (W V : Type) := {
  host : text;
  database : text;
  user : text;
  password : text;
  table : text;
  update_id : text;
  columns : list PyObj;
  null_values : list V;
  column_separator : text;
  rows : list (list V);
  init_copy : Conn -> W -> Result unit * W;
  post_copy : Conn -> W -> Result unit * W;
  create_table : Conn -> W -> Result unit * W
}.

Section Methods.
Context {W : Type} {env : Env W} {V : Type} {pv : PyValue V}.

Definition map_column (self : t W V) (value : V) : text :=
  if existsb (fun x => py_eq x value) (null_values self) then []
  else text_type value.

Definition output (self : t W V) : Result VerticaTarget.t :=
  VerticaTarget.init (host self) (database self) (user self)
    (password self) (table self) (update_id self) PortNone.

Definition columns_error : string :=
  "columns must consist of column strings or (column string, type string) tuples (was %r ...)".

(** The first half of [copy]: the names the COPY statement lists. *)
Definition column_names (self : t W V) : Result (list PyObj) :=
  match columns self with
  | [] => Raise IndexError
  | c0 :: _ =>
      if is_str c0 then Ok (columns self)
      else match py_len c0 with
           | Raise e => Raise e
           | Ok n =>
               if Nat.eqb n 2 then map_result item0 (columns self)
               else Raise (ExceptionFmt columns_error c0)
           end
  end.

Definition copy_sql (self : t W V) (joined : text) : text :=
  txt "COPY " ++ table self ++ txt " (" ++ joined
    ++ txt ") FROM STDIN DELIMITER '" ++ column_separator self ++ txt "' ".

Definition copy (self : t W V) (cursor : Conn) : M W unit :=
  names <- lift (column_names self) ;;
  joined <- lift (py_join (txt ",") names) ;;
  cursor_copy cursor (copy_sql self joined).

(** The text of one staged line. *)
Definition rowstr (self : t W V) (row : list V) : text :=
  join (column_separator self) (map (map_column self) row) ++ [newline].

Definition encode_utf8 (s : text) : Result bytes :=
  match encode s with
  | Some data => Ok data
  | None => Raise UnicodeEncodeError
  end.

(** The staging loop, [for row in self.rows(): ...]. *)
Fixpoint write_rows (self : t W V) (rs : list (list V)) : M W unit :=
  match rs with
  | [] => ret tt
  | row :: rest =>
      data <- lift (encode_utf8 (rowstr self row)) ;;
      tmp_write data ;;
      write_rows self rest
  end.

(** The body of the [try] in the retry loop. *)
Definition copy_attempt (self : t W V) (connection : Conn) : M W unit :=
  let cursor := connection in
  call (EvInitCopy connection) (init_copy self connection) ;;
  copy self cursor ;;
  call (EvPostCopy connection) (post_copy self connection).

(** [for attempt in attempts: try ... except MissingRelation ... else break] *)
Fixpoint copy_loop (self : t W V) (connection : Conn) (attempts : list nat)
    : M W unit :=
  match attempts with
  | [] => ret tt
  | attempt :: rest =>
      try_except_else (copy_attempt self connection)
        (fun e =>
           match e with
           | MissingRelation =>
               if Nat.eqb attempt 0 then
                 reset_connection connection ;;
                 call (EvCreateTable connection)
                      (create_table self connection) ;;
                 copy_loop self connection rest
               else raise MissingRelation
           | _ => raise e
           end)
        (fun _ => ret tt)
  end.

Definition truthy {A} (l : list A) : bool :=
  match l with [] => false | _ => true end.

Definition run (self : t W V) : M W unit :=
  if negb (truthy (table self) && truthy (columns self)) then
    raise (Exception_ "table and columns need to be specified")
  else
    with_tempfile (
      target <- lift (output self) ;;
      with_connection (VerticaTarget.connect target) (fun connection =>
        write_rows self (rows self) ;;
        tmp_seek 0 ;;
        copy_loop self connection (seq 0 2) ;;
        target <- lift (output self) ;;
        VerticaTarget.touch target (Some connection))).

(** *** Names for the stages of [run], used to state its properties *)

(** The state [run] reaches when it enters the retry loop: the connection is
    open, the rows are written and the file is rewound. *)
Definition staged (self : t W V) (target : VerticaTarget.t) : M W Conn :=
  connection <- VerticaTarget.connect target ;;
  write_rows self (rows self) ;;
  tmp_seek 0 ;;
  ret connection.

(** Leaving the two [with] blocks of [run] with result [r]. *)
Definition leave {A} (connection : Conn) (r : Result A) (s : state W)
    : state W :=
  set_tmp [] 0
    (set_world (drv_exit connection (is_raise r) (world s))
       (add_log (EvExit connection (is_raise r)) s)).

(** The staged buffer in the words of the specification: per row, the
    encoded join of the mapped fields and a newline, concatenated in row
    order. *)
Definition staged_buffer (self : t W V) (rs : list (list V)) : bytes :=
  List.concat (map (fun row =>
                 utf8 (join (column_separator self)
                         (map (map_column self) row) ++ [newline])) rs).

(** The state after the staging loop and the rewind, from the state [s] in
    which the loop starts. *)
Definition after_staging (self : t W V) (s : state W) : state W :=
  {| world := world s;
     log := log s ++ map (fun row => EvWrite (utf8 (rowstr self row)))
                       (rows self);
     tmp_file := tmp_file s ++ staged_buffer self (rows self);
     tmp_pos := 0 |}.

(** Every staged line is made of Unicode scalar values. *)
Definition encodable (self : t W V) : Prop :=
  Forall (fun row => forallb is_scalar (rowstr self row) = true) (rows self).

(** One call of the [create_table] hook. *)
Definition call_create_table (self : t W V) (connection : Conn) : M W unit :=
  call (EvCreateTable connection) (create_table self connection).

(** The copy step fails with [e] in state [s2]: on the first attempt, or on
    the second one, made after a missing relation, a reset and a table
    creation. *)
Definition copy_step_fails (self : t W V) (connection : Conn)
    (s1 : state W) (e : exn) (s2 : state W) : Prop :=
  copy_attempt self connection s1 = (Raise e, s2) \/
  exists sa sb sc,
    copy_attempt self connection s1 = (Raise MissingRelation, sa) /\
    reset_connection connection sa = (Ok tt, sb) /\
    call_create_table self connection sb = (Ok tt, sc) /\
    copy_attempt self connection sc = (Raise e, s2).

(** The two accepted shapes of [columns]. *)
Definition flat_names (cols : list PyObj) : bool := forallb is_str cols.

Definition name_type_pairs (cols : list PyObj) : bool :=
  forallb (fun o => match o with OSeq [_; _] => true | _ => false end) cols.

End Methods.

End CopyToTable.

(** ** A scripted outside, to run the program on concrete inputs

    Every call that can fail consumes the next reply of the script; once the
    script is used up every call succeeds.  Connections are numbered in the
    order they are opened. *)

Module Script.

Inductive reply :=
| Done                 (* the call succeeds *)
| Fails (e : exn)      (* the call raises [e] *)
| NoRow.               (* the call succeeds; a fetch finds no row *)

Record sim := {
  replies : list reply;
  next_conn : Conn;
  clock : N
}.

Definition pop (w : sim) : reply * sim :=
  match replies w with
  | [] => (Done, w)
  | r :: rest =>
      (r, {| replies := rest; next_conn := next_conn w; clock := clock w |})
  end.

Definition answer (w : sim) : Result unit * sim :=
  let '(r, w1) := pop w in
  (match r with Fails e => Raise e | _ => Ok tt end, w1).

Definition open (w : sim) : Result Conn * sim :=
  match pop w with
  | (Fails e, w1) => (Raise e, w1)
  | (_, w1) =>
      (Ok (next_conn w1),
       {| replies := replies w1; next_conn := S (next_conn w1);
          clock := clock w1 |})
  end.

Definition fetch (w : sim) : Result (option row) * sim :=
  match pop w with
  | (Fails e, w1) => (Raise e, w1)
  | (NoRow, w1) => (Ok None, w1)
  | (Done, w1) => (Ok (Some [1%N]), w1)
  end.

Definition bulk (data : bytes) (w : sim) : (Result unit * nat) * sim :=
  match answer w with
  | (Ok u, w1) => ((Ok u, List.length data), w1)
  | (Raise e, w1) => ((Raise e, 0), w1)
  end.

#[export] Instance env : Env sim := {|
  cfg_marker_table := txt "table_updates";
  drv_connect := fun _ => open;
  drv_exit := fun _ _ w => w;
  drv_execute := fun _ _ _ => answer;
  drv_fetchone := fun _ => fetch;
  drv_commit := fun _ => answer;
  drv_reset := fun _ => answer;
  drv_copy := fun _ _ => bulk;
  clock_now := clock
|}.

(** Row values for the examples: [None], a [str] or an [int]. *)
Inductive value :=
| VNone
| VStr (s : text)
| VInt (z : Z).

Definition value_eq (a b : value) : bool :=
  match a, b with
  | VNone, VNone => true
  | VStr x, VStr y => text_eqb x y
  | VInt x, VInt y => Z.eqb x y
  | _, _ => false
  end.

Definition value_text (v : value) : text :=
  match v with
  | VNone => txt "None"
  | VStr s => s
  | VInt z => txt (NilZero.string_of_int (Z.to_int z))
  end.

#[export] Instance py_value : PyValue value := {|
  py_eq := value_eq;
  text_type := value_text
|}.

Definition start (script : list reply) : state sim :=
  {| world := {| replies := script; next_conn := 0; clock := 1420070400 |};
     log := []; tmp_file := []; tmp_pos := 0 |}.

Definition no_hook : Conn -> sim -> Result unit * sim :=
  fun _ w => (Ok tt, w).

(** The task of the repository's test, with a scripted [create_table]. *)
Definition task (columns : list PyObj) (rows : list (list value))
    : CopyToTable.t sim value :=
  {| CopyToTable.host := txt "localhost";
     CopyToTable.database := txt "vertica";
     CopyToTable.user := txt "dbadmin";
     CopyToTable.password := [];
     CopyToTable.table := txt "test_table";
     CopyToTable.update_id := txt "TestVerticaTask()";
     CopyToTable.columns := columns;
     CopyToTable.null_values := [VNone];
     CopyToTable.column_separator := [9%N];
     CopyToTable.rows := rows;
     CopyToTable.init_copy := no_hook;
     CopyToTable.post_copy := no_hook;
     CopyToTable.create_table := fun _ => answer |}.

Definition test_columns : list PyObj :=
  [OSeq [OStr (txt "test_text"); OStr (txt "varchar")];
   OSeq [OStr (txt "test_int"); OStr (txt "int")]].

(** [u'éцү我'] *)
Definition unicode_sample : text := [233; 1094; 1199; 25105]%N.

Definition test_rows : list (list value) :=
  [[VStr (txt "foo"); VInt 123];
   [VNone; VStr (txt "-100")];
   [VStr unicode_sample; VInt 0]].

Definition target : VerticaTarget.t :=
  {| VerticaTarget.marker_table := txt "table_updates";
     VerticaTarget.use_db_timestamps := true;
     VerticaTarget.host := txt "localhost";
     VerticaTarget.port := PortNone;
     VerticaTarget.database := txt "vertica";
     VerticaTarget.user := txt "dbadmin";
     VerticaTarget.password := [];
     VerticaTarget.table := txt "test_table";
     VerticaTarget.update_id := txt "TestVerticaTask()" |}.

(** The load of the test, and the scripts of the runs examined below. *)
Definition load : CopyToTable.t sim value := task test_columns test_rows.


(** The connection opens; the COPY fails for want of the table; the reset
    and [create_table] succeed; the COPY fails for want of the table again. *)
Definition missing_twice : list reply :=
  [Done; Fails MissingRelation; Done; Done; Fails MissingRelation].

(** The connection opens; the COPY fails with another error. *)
Definition copy_breaks : list reply := [Done; Fails (DatabaseError 4856)].

(** The marker table exists already. *)
Definition marker_exists : list reply := [Done; Fails DuplicateObject].

(** The lookup finds no marker table. *)
Definition marker_missing : list reply := [Fails MissingRelation].

(** A first element of three items. *)
Definition triple_columns : list PyObj :=
  [OSeq [OStr (txt "test_text"); OStr (txt "varchar"); OStr (txt "x")]].

(** A pair first, a triple after it. *)
Definition mixed_columns : list PyObj :=
  [OSeq [OStr (txt "test_text"); OStr (txt "varchar")];
   OSeq [OStr (txt "test_int"); OStr (txt "int"); OStr (txt "x")]].

(** An IPv6 address with a port. *)
Definition ipv6_host : text := txt "[::1]:5433".

(** The states the runs below go through, evaluated once. *)

Definition entered (script : list reply) : state sim :=
  set_tmp [] 0 (start script).

(** The load whose table is missing twice. *)
Definition retry_staged : state sim :=
  Eval vm_compute in
    snd (CopyToTable.staged load target (entered missing_twice)).

Definition retry_first : state sim :=
  Eval vm_compute in snd (CopyToTable.copy_attempt load 0 retry_staged).

Definition retry_reset : state sim :=
  Eval vm_compute in snd (reset_connection 0 retry_first).

Definition retry_created : state sim :=
  Eval vm_compute in snd (CopyToTable.call_create_table load 0 retry_reset).

Definition retry_second : state sim :=
  Eval vm_compute in snd (CopyToTable.copy_attempt load 0 retry_created).

(** The load whose COPY breaks. *)
Definition broken_staged : state sim :=
  Eval vm_compute in
    snd (CopyToTable.staged load target (entered copy_breaks)).

Definition broken_first : state sim :=
  Eval vm_compute in snd (CopyToTable.copy_attempt load 0 broken_staged).


(** [create_marker_table] when the marker table exists. *)
Definition marker_connected : state sim :=
  Eval vm_compute in snd (VerticaTarget.connect target (start marker_exists)).

Definition marker_refused : state sim :=
  Eval vm_compute in
    snd (cursor_execute 0 (VerticaTarget.create_sql target) []
           marker_connected).

(** The load with a first column of three items. *)
Definition triple_load : CopyToTable.t sim value :=
  task triple_columns test_rows.

Definition triple_staged : state sim :=
  Eval vm_compute in
    snd (CopyToTable.staged triple_load target (entered [])).

Definition triple_inited : state sim :=
  Eval vm_compute in
    snd (call (EvInitCopy 0) (CopyToTable.init_copy triple_load 0)
           triple_staged).




End Script.

(** ** class VerticaQuery *)

Module VerticaQuery.

(** The attributes the task inherits from [rdbms.Query]. *)
Record t := {
  host : text;
  database : text;
  user : text;
  password : text;
  table : text;
  update_id : text;
  query : text
}.

Section Methods.
Context {W : Type} {env : Env W}.

Definition output (self : t) : Result VerticaTarget.t :=
  VerticaTarget.init (host self) (database self) (user self)
    (password self) (table self) (update_id self) PortNone.

Definition run (self : t) : M W unit :=
  target <- lift (output self) ;;
  with_connection (VerticaTarget.connect target) (fun connection =>
    let cursor := connection in
    let sql := query self in
    cursor_execute cursor sql [] ;;
    target <- lift (output self) ;;
    VerticaTarget.touch target (Some connection)).

End Methods.

End VerticaQuery.

(** ** CopyToTable.rows, the default row source *)

Module Rows.

Definition tab : N := 9.

(** [s.lstrip(c)], [s.rstrip(c)] and [s.strip(c)] for a one-character [c]. *)
Fixpoint lstrip (c : N) (s : text) : text :=
  match s with
  | [] => []
  | x :: rest => if N.eqb x c then lstrip c rest else s
  end.

Fixpoint rstrip (c : N) (s : text) : text :=
  match s with
  | [] => []
  | x :: rest =>
      match rstrip c rest with
      | [] => if N.eqb x c then [] else [x]
      | kept => x :: kept
      end
  end.

Definition strip (c : N) (s : text) : text := rstrip c (lstrip c s).

(** [for line in fobj: yield line.strip('\n').split('\t')]: [fobj] is the
    opened input, line by line; [of_str] makes a row value of a [str]. *)
Definition rows {V : Type} (of_str : text -> V) (fobj : list text)
    : list (list V) :=
  map (fun line => map of_str (split tab (strip newline line))) fobj.

End Rows.

(** ** Names used to state further properties *)

(** Leaving the [with] block of a connection with result [r]. *)
Definition closed {W} {env : Env W} {A} (c : Conn) (r : Result A)
    (s : state W) : state W :=
  set_world (drv_exit c (is_raise r) (world s))
    (add_log (EvExit c (is_raise r)) s).

Definition count_events (p : event -> bool) (l : list event) : nat :=
  List.length (filter p l).

Definition is_copy_call (ev : event) : bool :=
  match ev with EvCopy _ _ _ => true | _ => false end.

Definition is_init_call (ev : event) : bool :=
  match ev with EvInitCopy _ => true | _ => false end.

Definition is_reset_call (ev : event) : bool :=
  match ev with EvReset _ => true | _ => false end.

Definition is_create_call (ev : event) : bool :=
  match ev with EvCreateTable _ => true | _ => false end.

(** The calls of the retry loop. *)
Definition is_loop_event (ev : event) : bool :=
  is_copy_event ev || is_reset_call ev || is_create_call ev.

(** A COPY that is handed an empty buffer, or any other call. *)
Definition copies_nothing (ev : event) : Prop :=
  match ev with EvCopy _ _ data => data = [] | _ => True end.

(** The read position is at the end of the temporary file, or past it. *)
Definition at_end {W} (s : state W) : Prop :=
  List.length (tmp_file s) <= tmp_pos s.

(** A property of the state that depends on the temporary file only and
    survives every move of the read position towards the end. *)
Definition file_invariant {W} (I : state W -> Prop) : Prop :=
  forall s s', I s -> tmp_file s' = tmp_file s -> tmp_pos s <= tmp_pos s' ->
               I s'.

(** From a state that satisfies [I], [m] keeps [I] and only appends to the
    log events that satisfy [P]. *)
Definition emits_under {W A} (I : state W -> Prop) (P : event -> Prop)
    (m : M W A) : Prop :=
  forall s, I s ->
    I (snd (m s)) /\ exists l, log (snd (m s)) = log s ++ l /\ Forall P l.

(** The calls a target makes. *)
Definition is_target_call (ev : event) : bool :=
  match ev with
  | EvConnect _ | EvExit _ _ | EvExecute _ _ _ | EvFetchone _ | EvCommit _ =>
      true
  | _ => false
  end.

(** Bounds on the calls of the retry loop that a log holds. *)
Definition within (copies inits resets creations : nat) (l : list event)
    : Prop :=
  count_events is_copy_call l <= copies /\
  count_events is_init_call l <= inits /\
  count_events is_reset_call l <= resets /\
  count_events is_create_call l <= creations.

(** The number of [':'] in a host string. *)
Definition separators (host : text) : nat := count_occ N.eq_dec host colon.

(** A column list of flat names, and one of (name, type) pairs. *)
Definition flat_columns (names : list text) : list PyObj := map OStr names.

Definition pair_columns (cols : list (text * text)) : list PyObj :=
  map (fun nt => OSeq [OStr (fst nt); OStr (snd nt)]) cols.

(** ** Further scripted runs *)

Module Scenario.

Import Script.

Definition query_task : VerticaQuery.t :=
  {| VerticaQuery.host := txt "localhost";
     VerticaQuery.database := txt "vertica";
     VerticaQuery.user := txt "dbadmin";
     VerticaQuery.password := [];
     VerticaQuery.table := txt "test_table";
     VerticaQuery.update_id := txt "TestVerticaTask()";
     VerticaQuery.query := txt "TRUNCATE TABLE test_table" |}.

(** The connection opens; the statement of the query fails. *)
Definition query_breaks : list reply := [Done; Fails MissingRelation].

Definition query_connected : state sim :=
  Eval vm_compute in snd (VerticaTarget.connect target (start query_breaks)).

Definition query_failed : state sim :=
  Eval vm_compute in
    snd (cursor_execute 0 (VerticaQuery.query query_task) [] query_connected).

Definition query_opened : state sim :=
  Eval vm_compute in snd (VerticaTarget.connect target (start [])).

Definition query_done : state sim :=
  Eval vm_compute in
    snd (cursor_execute 0 (VerticaQuery.query query_task) [] query_opened).

Definition query_touched : state sim :=
  Eval vm_compute in snd (VerticaTarget.touch target (Some 0) query_done).

(** A row with a lone surrogate between two rows that encode. *)
Definition surrogate_row : list value := [VStr [0xD800%N]; VInt 1].

Definition surrogate_load : CopyToTable.t sim value :=
  task test_columns
    ([[VStr (txt "foo"); VInt 123]] ++ surrogate_row :: [[VNone; VInt 0]]).

Definition surrogate_connected : state sim :=
  Eval vm_compute in snd (VerticaTarget.connect target (entered [])).

(** The connection opens; the COPY fails for want of the table; the reset
    succeeds; [create_table] fails. *)
Definition creation_breaks : list reply :=
  [Done; Fails MissingRelation; Done; Fails (DatabaseError 2)].

Definition creation_staged : state sim :=
  Eval vm_compute in
    snd (CopyToTable.staged load target (entered creation_breaks)).

Definition creation_first : state sim :=
  Eval vm_compute in snd (CopyToTable.copy_attempt load 0 creation_staged).

Definition creation_reset : state sim :=
  Eval vm_compute in snd (reset_connection 0 creation_first).

Definition creation_failed : state sim :=
  Eval vm_compute in
    snd (CopyToTable.call_create_table load 0 creation_reset).

(** A load whose [post_copy] is scripted: the COPY reads the whole file,
    then [post_copy] fails for want of a relation. *)
Definition post_load : CopyToTable.t sim value :=
  {| CopyToTable.host := txt "localhost";
     CopyToTable.database := txt "vertica";
     CopyToTable.user := txt "dbadmin";
     CopyToTable.password := [];
     CopyToTable.table := txt "test_table";
     CopyToTable.update_id := txt "TestVerticaTask()";
     CopyToTable.columns := test_columns;
     CopyToTable.null_values := [VNone];
     CopyToTable.column_separator := [9%N];
     CopyToTable.rows := test_rows;
     CopyToTable.init_copy := no_hook;
     CopyToTable.post_copy := fun _ => answer;
     CopyToTable.create_table := fun _ => answer |}.

Definition post_breaks : list reply := [Done; Done; Fails MissingRelation].

Definition post_staged : state sim :=
  Eval vm_compute in
    snd (CopyToTable.staged post_load target (entered post_breaks)).

Definition post_first : state sim :=
  Eval vm_compute in snd (CopyToTable.copy_attempt post_load 0 post_staged).

Definition post_created : state sim :=
  Eval vm_compute in
    snd (CopyToTable.call_create_table post_load 0
           (snd (reset_connection 0 post_first))).

(** The lines of an input file. *)
Definition input_lines : list text :=
  [txt "foo" ++ [9%N] ++ txt "123" ++ [10%N];
   [9%N] ++ txt "-100" ++ [10%N];
   unicode_sample ++ [9%N] ++ txt "0"].

Definition line_load : CopyToTable.t sim value :=
  task test_columns (Rows.rows VStr input_lines).

(** [create_marker_table] where the statement fails for another reason. *)
Definition marker_breaks : list reply := [Done; Fails (DatabaseError 1)].

Definition marker_broken : state sim :=
  Eval vm_compute in
    snd (VerticaTarget.create_marker_table target (start marker_breaks)).

Definition marker_left : state sim :=
  Eval vm_compute in
    snd (VerticaTarget.create_marker_table target (start marker_exists)).

(** The load where every call succeeds. *)
Definition load_done : state sim :=
  Eval vm_compute in snd (CopyToTable.run load (start [])).

(** The connection is refused. *)
Definition refusal : list reply := [Fails (DatabaseError 7)].

Definition refused : state sim :=
  Eval vm_compute in snd (VerticaTarget.connect target (entered refusal)).

Definition name_type_columns : list (text * text) :=
  [(txt "test_text", txt "varchar"); (txt "test_int", txt "int")].

Definition line_bodies : list text :=
  [txt "foo" ++ [9%N] ++ txt "123"; [9%N] ++ txt "-100";
   unicode_sample ++ [9%N] ++ txt "0"].



End Scenario.

(** * Properties *)

(** ** UTF-8: the staging encoding loses nothing *)

Section Utf8.

#[local] Open Scope N_scope.

(** [lia] is to reason about the quotients and remainders of the encoder. *)
Ltac Zify.zify_post_hook ::= Z.to_euclidean_division_equations.

Lemma to_N_byte_of (n : N) : n < 256 -> Byte.to_N (byte_of n) = n.
Proof.
  intros Hn. unfold byte_of.
  destruct (Byte.of_N n) as [b|] eqn:E.
  - now apply Byte.to_of_N.
  - apply Byte.of_N_None_iff in E. lia.
Qed.

Lemma low6_byte_of (n : N) : n < 64 -> low6 (byte_of (0x80 + n)) = n.
Proof.
  intros Hn. unfold low6. rewrite to_N_byte_of; lia.
Qed.

Lemma is_cont_byte_of (n : N) : n < 64 -> is_cont (byte_of (0x80 + n)) = true.
Proof.
  intros Hn. unfold is_cont. rewrite to_N_byte_of by lia.
  apply andb_true_intro; split; [apply N.leb_le | apply N.ltb_lt]; lia.
Qed.

Ltac split_ltb :=
  repeat match goal with
         | |- context [N.ltb ?a ?b] => destruct (N.ltb_spec a b); try lia
         | |- context [N.leb ?a ?b] => destruct (N.leb_spec a b); try lia
         end.

Lemma utf8_decode_char (c : N) (rest : bytes) :
  is_scalar c = true ->
  utf8_decode (utf8_char c ++ rest) = option_map (cons c) (utf8_decode rest).
Proof.
  unfold is_scalar. intros Hc.
  apply andb_prop in Hc as [Hs Hmax]. apply N.ltb_lt in Hmax.
  assert (Hsur : c < 0xD800 \/ 0xE000 <= c).
  { apply orb_prop in Hs as [H|H];
      [left; now apply N.ltb_lt | right; now apply N.leb_le]. }
  clear Hs. unfold utf8_char.
  destruct (N.ltb_spec c 0x80) as [H1|H1].
  - cbn [app utf8_decode]. rewrite to_N_byte_of by lia.
    destruct (N.ltb_spec c 0x80); [reflexivity | lia].
  - destruct (N.ltb_spec c 0x800) as [H2|H2].
    + cbn [app utf8_decode].
      rewrite (to_N_byte_of (n := 0xC0 + c / 64)) by lia.
      rewrite is_cont_byte_of, low6_byte_of by lia.
      replace ((0xC0 + c / 64 - 0xC0) * 64 + c mod 64) with c by lia.
      cbn [andb]. split_ltb. reflexivity.
    + destruct (N.ltb_spec c 0x10000) as [H3|H3].
      * cbn [app utf8_decode].
        rewrite (to_N_byte_of (n := 0xE0 + c / 4096)) by lia.
        rewrite !is_cont_byte_of, !low6_byte_of by lia.
        replace ((0xE0 + c / 4096 - 0xE0) * 4096 + (c / 64) mod 64 * 64
                 + c mod 64) with c by lia.
        unfold is_scalar. cbn [andb]. split_ltb; reflexivity.
      * cbn [app utf8_decode].
        rewrite (to_N_byte_of (n := 0xF0 + c / 262144)) by lia.
        rewrite !is_cont_byte_of, !low6_byte_of by lia.
        replace ((0xF0 + c / 262144 - 0xF0) * 262144
                 + (c / 4096) mod 64 * 4096 + (c / 64) mod 64 * 64
                 + c mod 64) with c by lia.
        unfold is_scalar. cbn [andb]. split_ltb; reflexivity.
Qed.

Lemma utf8_decode_app (s : text) (rest : bytes) :
  forallb is_scalar s = true ->
  utf8_decode (utf8 s ++ rest) = option_map (app s) (utf8_decode rest).
Proof.
  induction s as [|c s IH]; intros Hs.
  - cbn. now destruct (utf8_decode rest).
  - cbn [forallb] in Hs. apply andb_prop in Hs as [Hc Hs].
    unfold utf8 in *. cbn [flat_map]. rewrite <- app_assoc.
    rewrite utf8_decode_char by assumption. rewrite IH by assumption.
    now destruct (utf8_decode rest).
Qed.

Lemma utf8_roundtrip (s : text) :
  forallb is_scalar s = true -> utf8_decode (utf8 s) = Some s.
Proof.
  intros Hs. rewrite <- (app_nil_r (utf8 s)).
  rewrite utf8_decode_app by assumption. cbn. now rewrite app_nil_r.
Qed.

End Utf8.

(** ** What a computation appends to the log *)

Section Emits.
Context {W : Type} {env : Env W}.

Lemma emits_ret {A} (P : event -> Prop) (a : A) : emits P (@ret W A a).
Proof. intros s. exists []. cbn. now rewrite app_nil_r. Qed.

Lemma emits_raise {A} (P : event -> Prop) (e : exn) : emits P (@raise W A e).
Proof. intros s. exists []. cbn. now rewrite app_nil_r. Qed.

Lemma emits_lift {A} (P : event -> Prop) (r : Result A) : emits P (@lift W A r).
Proof. intros s. exists []. cbn. now rewrite app_nil_r. Qed.

Lemma emits_bind {A B} (P : event -> Prop) (m : M W A) (k : A -> M W B) :
  emits P m -> (forall a, emits P (k a)) -> emits P (bind m k).
Proof.
  intros Hm Hk s. unfold bind.
  destruct (Hm s) as (l1 & E1 & F1).
  destruct (m s) as [[a|e] s1]; cbn in E1.
  - destruct (Hk a s1) as (l2 & E2 & F2).
    exists (l1 ++ l2). rewrite E2, E1, app_assoc.
    split; [reflexivity | now apply Forall_app].
  - exists l1. now split.
Qed.

Lemma emits_try_except_else {A B} (P : event -> Prop) (body : M W A)
    (handler : exn -> M W B) (orelse : A -> M W B) :
  emits P body -> (forall e, emits P (handler e)) ->
  (forall a, emits P (orelse a)) ->
  emits P (try_except_else body handler orelse).
Proof.
  intros Hb Hh Ho s. unfold try_except_else.
  destruct (Hb s) as (l1 & E1 & F1).
  destruct (body s) as [[a|e] s1]; cbn in E1.
  - destruct (Ho a s1) as (l2 & E2 & F2).
    exists (l1 ++ l2). rewrite E2, E1, app_assoc.
    split; [reflexivity | now apply Forall_app].
  - destruct (Hh e s1) as (l2 & E2 & F2).
    exists (l1 ++ l2). rewrite E2, E1, app_assoc.
    split; [reflexivity | now apply Forall_app].
Qed.

Lemma emits_call {A} (P : event -> Prop) (ev : event)
    (f : W -> Result A * W) :
  P ev -> emits P (call ev f).
Proof.
  intros Hev s. exists [ev]. unfold call.
  destruct (f (world s)) as [r w]. cbn. split; [reflexivity | now constructor].
Qed.

Lemma emits_cursor_copy (P : event -> Prop) (c : Conn) (sql : text) :
  (forall data, P (EvCopy c sql data)) -> emits P (cursor_copy c sql).
Proof.
  intros Hev s. exists [EvCopy c sql (skipn (tmp_pos s) (tmp_file s))].
  unfold cursor_copy.
  destruct (drv_copy c sql (skipn (tmp_pos s) (tmp_file s)) (world s))
    as [[r n] w].
  cbn. split; [reflexivity | now constructor].
Qed.

Lemma emits_tmp_write (P : event -> Prop) (data : bytes) :
  P (EvWrite data) -> emits P (@tmp_write W data).
Proof.
  intros Hev s. exists [EvWrite data]. cbn.
  split; [reflexivity | now constructor].
Qed.

Lemma emits_tmp_seek (P : event -> Prop) (pos : nat) :
  emits P (@tmp_seek W pos).
Proof. intros s. exists []. cbn. now rewrite app_nil_r. Qed.

Lemma emits_weaken {A} (P Q : event -> Prop) (m : M W A) :
  (forall ev, P ev -> Q ev) -> emits P m -> emits Q m.
Proof.
  intros HPQ Hm s. destruct (Hm s) as (l & E & F).
  exists l. split; [assumption|]. eapply Forall_impl; eauto.
Qed.

(** The log a single logged call leaves. *)
Lemma log_call {A} (ev : event) (f : W -> Result A * W) (s : state W) :
  log (snd (call ev f s)) = log s ++ [ev].
Proof. unfold call. now destruct (f (world s)). Qed.

Lemma emits_run {P : event -> Prop} {A} {m : M W A} {s s' : state W}
    {r : Result A} :
  emits P m -> m s = (r, s') -> exists l, log s' = log s ++ l /\ Forall P l.
Proof. intros Hm E. specialize (Hm s). now rewrite E in Hm. Qed.

End Emits.

(** ** VerticaTarget *)

Section SplitFacts.

Lemma split_nonempty (c : N) (s : text) : split c s <> [].
Proof.
  induction s as [|x s IH]; cbn; [discriminate|].
  destruct (N.eqb x c); [discriminate|].
  destruct (split c s); discriminate.
Qed.

Lemma split_length (c : N) (s : text) : 1 <= List.length (split c s).
Proof.
  pose proof (split_nonempty c s). destruct (split c s); [easy | cbn; lia].
Qed.

Lemma split_no_separator (c : N) (s : text) :
  contains c s = false -> split c s = [s].
Proof.
  induction s as [|x s IH]; cbn; [reflexivity|].
  intros H. apply orb_false_elim in H as [Hx Hs].
  rewrite N.eqb_sym, Hx. now rewrite (IH Hs).
Qed.

Lemma split_app (c : N) (a r : text) :
  split c (a ++ c :: r) = split c a ++ split c r.
Proof.
  induction a as [|x a IH]; cbn.
  - now rewrite N.eqb_refl.
  - destruct (N.eqb x c); [now rewrite IH|].
    rewrite IH. pose proof (split_nonempty c a) as Hne.
    now destruct (split c a).
Qed.

Lemma contains_app_sep (c : N) (a r : text) : contains c (a ++ c :: r) = true.
Proof.
  unfold contains. rewrite existsb_app. cbn. rewrite N.eqb_refl.
  now rewrite orb_true_r.
Qed.

End SplitFacts.

Section TargetProperties.
Context {W : Type} {env : Env W}.

(** The constructor on a host string of the form host:port.  A host string
    with exactly one [':'] is split into the
    part before it and the part after it: the constructor, which makes no
    call, stores the first as the host and the second, a string, as the
    port, whatever [port] argument was given, and [connect] hands exactly
    these two to the driver.  A host string with two or more [':'] makes the
    constructor raise [ValueError]. *)
Theorem init_splits_host_port
    (h p database user password table update_id : text) (port : port_val) :
  (contains colon h = false -> contains colon p = false ->
   exists target,
     VerticaTarget.init (env := env) (h ++ colon :: p) database user password
       table update_id port = Ok target /\
     VerticaTarget.host target = h /\
     VerticaTarget.port target = PortStr p /\
     forall s : state W,
       let ps := {| cp_host := h; cp_port := PortStr p;
                    cp_database := database; cp_user := user;
                    cp_password := password |} in
       fst (VerticaTarget.connect target s) = fst (drv_connect ps (world s)) /\
       log (snd (VerticaTarget.connect target s)) = log s ++ [EvConnect ps]) /\
  (forall rest : text,
     VerticaTarget.init (env := env) (h ++ colon :: p ++ colon :: rest)
       database user password table update_id port = Raise ValueError).
Proof.
  split.
  - intros Hh Hp. eexists. unfold VerticaTarget.init.
    rewrite contains_app_sep, split_app.
    rewrite (split_no_separator _ _ Hh), (split_no_separator _ _ Hp).
    cbn [app]. split; [reflexivity|]. cbn.
    split; [reflexivity|]. split; [reflexivity|].
    intros s. unfold VerticaTarget.connect, vertica_connect, call,
      VerticaTarget.params. cbn.
    now destruct (drv_connect _ (world s)).
  - intros rest. unfold VerticaTarget.init.
    rewrite contains_app_sep, !split_app.
    pose proof (split_length colon h) as H1.
    pose proof (split_length colon p) as H2.
    pose proof (split_length colon rest) as H3.
    assert (Hlen : 3 <= List.length
                     (split colon h ++ split colon p ++ split colon rest))
      by (rewrite !length_app; lia).
    destruct (split colon h ++ split colon p ++ split colon rest)
      as [|x1 [|x2 [|x3 l]]]; cbn in Hlen; try lia; reflexivity.
Qed.

Lemma exists_spec_core (self : VerticaTarget.t) (connection : option Conn)
    (c : Conn) (s s0 : state W) :
  VerticaTarget.or_connect self connection s = (Ok c, s0) ->
  let lookup :=
    cursor_execute c (VerticaTarget.select_sql self)
      [(txt "uid", PStr (VerticaTarget.update_id self))] in
  (forall s', VerticaTarget.exists_ self connection s = (Ok true, s') <->
              exists s1 r, lookup s0 = (Ok tt, s1) /\
                           cursor_fetchone c s1 = (Ok (Some r), s')) /\
  (forall s1, lookup s0 = (Raise MissingRelation, s1) ->
              VerticaTarget.exists_ self connection s = (Ok false, s1)) /\
  (forall s', VerticaTarget.exists_ self connection s
              <> (Raise MissingRelation, s')).
Proof.
  intros Hc lookup. unfold VerticaTarget.exists_, bind. rewrite Hc.
  unfold try_except, try_except_else, bind. fold lookup.
  destruct (lookup s0) as [[[]|e] s1] eqn:El.
  - destruct (cursor_fetchone c s1) as [[[r|]|e] s2] eqn:Ef; cbn.
    + split; [|split]; try discriminate.
      intros s'. split.
      * intros H. injection H as <-. now exists s1, r.
      * intros (s1' & r' & H1 & H2). injection H1 as <-.
        rewrite Ef in H2. now injection H2 as _ <-.
    + split; [|split]; try discriminate.
      intros s'. split; [discriminate|].
      intros (s1' & r' & H1 & H2). injection H1 as <-.
      rewrite Ef in H2. discriminate.
    + split; [|split]; try discriminate.
      * intros s'. split.
        -- destruct e; cbn; discriminate.
        -- intros (s1' & r' & H1 & H2). injection H1 as <-.
           rewrite Ef in H2. discriminate.
      * intros s'. destruct e; cbn; discriminate.
  - split; [|split].
    + intros s'. split.
      * destruct e; cbn; discriminate.
      * intros (s1' & r' & H1 & _). discriminate.
    + intros s1' H. injection H as -> <-. reflexivity.
    + intros s'. destruct e; cbn; discriminate.
Qed.

(** C4.  On the connection it works on, [exists] answers [True] exactly
    when its lookup runs and fetches a row, the lookup being the statement
    [SELECT 1 FROM <marker table> WHERE update_id = :uid LIMIT 1] with the
    target's [update_id] bound to [:uid]; when the lookup raises a
    missing-relation error it answers [False]; it never lets a
    missing-relation error out. *)
Theorem exists_spec (self : VerticaTarget.t) (connection : option Conn)
    (c : Conn) (s s0 : state W) :
  VerticaTarget.or_connect self connection s = (Ok c, s0) ->
  let lookup :=
    cursor_execute c (VerticaTarget.select_sql self)
      [(txt "uid", PStr (VerticaTarget.update_id self))] in
  (forall s', VerticaTarget.exists_ self connection s = (Ok true, s') <->
              exists s1 r, lookup s0 = (Ok tt, s1) /\
                           cursor_fetchone c s1 = (Ok (Some r), s')) /\
  (forall s1, lookup s0 = (Raise MissingRelation, s1) ->
              VerticaTarget.exists_ self connection s = (Ok false, s1)) /\
  (forall s', VerticaTarget.exists_ self connection s
              <> (Raise MissingRelation, s')) /\
  VerticaTarget.select_sql self
  = txt "SELECT 1 FROM " ++ VerticaTarget.marker_table self
    ++ txt " WHERE update_id = :uid LIMIT 1".
Proof.
  intros Hc lookup.
  pose proof (@exists_spec_core self connection c s s0 Hc) as K.
  cbv zeta in K. destruct K as (A & B & C).
  split; [exact A|]. split; [exact B|]. split; [exact C|]. reflexivity.
Qed.

End TargetProperties.

Section MarkerProperties.
Context {W : Type} {env : Env W}.

Lemma log_cursor_execute {c : Conn} {sql : text} {ps : list (text * param)}
    {s s' : state W} {r : Result unit} :
  cursor_execute c sql ps s = (r, s') -> log s' = log s ++ [EvExecute c sql ps].
Proof.
  intros H. pose proof (log_call (EvExecute c sql ps) (drv_execute c sql ps) s)
    as L. unfold cursor_execute in H. now rewrite H in L.
Qed.

Lemma log_fetchone {c : Conn} {s s' : state W} {r : Result (option row)} :
  cursor_fetchone c s = (r, s') -> log s' = log s ++ [EvFetchone c].
Proof.
  intros H. pose proof (log_call (EvFetchone c) (drv_fetchone c) s) as L.
  unfold cursor_fetchone in H. now rewrite H in L.
Qed.

Lemma log_commit {c : Conn} {s s' : state W} {r : Result unit} :
  connection_commit c s = (r, s') -> log s' = log s ++ [EvCommit c].
Proof.
  intros H. pose proof (log_call (EvCommit c) (drv_commit c) s) as L.
  unfold connection_commit in H. now rewrite H in L.
Qed.

Lemma log_connect {self : VerticaTarget.t} {s s' : state W} {r : Result Conn} :
  VerticaTarget.connect self s = (r, s') ->
  log s' = log s ++ [EvConnect (VerticaTarget.params self)].
Proof.
  intros H.
  pose proof (log_call (EvConnect (VerticaTarget.params self))
                (drv_connect (VerticaTarget.params self)) s) as L.
  unfold VerticaTarget.connect, vertica_connect in H. now rewrite H in L.
Qed.

Lemma create_marker_table_eq {self : VerticaTarget.t} {s s1 s2 : state W}
    {c : Conn} {r : Result unit} :
  VerticaTarget.connect self s = (Ok c, s1) ->
  cursor_execute c (VerticaTarget.create_sql self) [] s1 = (r, s2) ->
  VerticaTarget.create_marker_table self s
  = (tolerate_duplicate r,
     set_world (drv_exit c (is_raise (tolerate_duplicate r)) (world s2))
       (add_log (EvExit c (is_raise (tolerate_duplicate r))) s2)).
Proof.
  intros Hc Hx.
  unfold VerticaTarget.create_marker_table, with_connection, bind.
  rewrite Hc. unfold try_except, try_except_else. rewrite Hx.
  destruct r as [[]|e]; [reflexivity|]. destruct e; reflexivity.
Qed.

(** C5.  [create_marker_table] opens a connection of its own, sends on it
    the one CREATE TABLE statement that the timestamp mode selects, and
    leaves the connection: a duplicate-object error of the statement is
    swallowed, every other error of it reaches the caller. *)
Theorem create_marker_table_spec (self : VerticaTarget.t) (s s1 s2 : state W)
    (c : Conn) (r : Result unit) :
  VerticaTarget.connect self s = (Ok c, s1) ->
  cursor_execute c (VerticaTarget.create_sql self) [] s1 = (r, s2) ->
  let failing := is_raise (tolerate_duplicate r) in
  let s3 := set_world (drv_exit c failing (world s2))
              (add_log (EvExit c failing) s2) in
  VerticaTarget.create_marker_table self s = (tolerate_duplicate r, s3) /\
  log s3 = log s ++ [EvConnect (VerticaTarget.params self);
                     EvExecute c (VerticaTarget.create_sql self) [];
                     EvExit c failing] /\
  (r = Raise DuplicateObject -> tolerate_duplicate r = Ok tt) /\
  (forall e, r = Raise e -> e <> DuplicateObject ->
             tolerate_duplicate r = Raise e) /\
  VerticaTarget.create_sql self =
    txt "CREATE TABLE " ++ VerticaTarget.marker_table self ++
    (if VerticaTarget.use_db_timestamps self
     then txt " (update_id VARCHAR PRIMARY KEY, target_table VARCHAR, inserted TIMESTAMP DEFAULT NOW())"
     else txt " (update_id VARCHAR PRIMARY KEY, target_table VARCHAR, inserted TIMESTAMP)").
Proof.
  intros Hc Hx failing s3.
  split; [|split; [|split; [|split]]].
  - apply (create_marker_table_eq Hc Hx).
  - subst s3. cbn [log set_world add_log].
    rewrite (log_cursor_execute Hx), (log_connect Hc).
    now rewrite <- !app_assoc.
  - now intros ->.
  - intros e -> He. destruct e; try reflexivity. now elim He.
  - unfold VerticaTarget.create_sql.
    now destruct (VerticaTarget.use_db_timestamps self).
Qed.

Lemma touch_insert_step (self : VerticaTarget.t) (c : Conn) (s : state W) :
  (if VerticaTarget.use_db_timestamps self then
     cursor_execute c (VerticaTarget.insert_sql self)
       [(txt "uid", PStr (VerticaTarget.update_id self));
        (txt "table", PStr (VerticaTarget.table self))]
   else
     now <- datetime_now ;;
     cursor_execute c (VerticaTarget.insert_sql self)
       [(txt "uid", PStr (VerticaTarget.update_id self));
        (txt "table", PStr (VerticaTarget.table self));
        (txt "time", PTime now)]) s
  = cursor_execute c (VerticaTarget.insert_sql self)
      (VerticaTarget.marker_row self (clock_now (world s))) s.
Proof.
  unfold VerticaTarget.marker_row.
  now destruct (VerticaTarget.use_db_timestamps self).
Qed.

Lemma create_marker_table_log {self : VerticaTarget.t} {s s1 : state W} :
  VerticaTarget.create_marker_table self s = (Ok tt, s1) ->
  exists c, log s1 = log s ++ [EvConnect (VerticaTarget.params self);
                               EvExecute c (VerticaTarget.create_sql self) [];
                               EvExit c false].
Proof.
  intros H.
  destruct (VerticaTarget.connect self s) as [[c|e] s0] eqn:Hc.
  - destruct (cursor_execute c (VerticaTarget.create_sql self) [] s0)
      as [r s2] eqn:Hx.
    rewrite (create_marker_table_eq Hc Hx) in H.
    injection H as Hr <-. exists c. rewrite Hr. cbn [log set_world add_log].
    rewrite (log_cursor_execute Hx), (log_connect Hc).
    now rewrite <- !app_assoc.
  - unfold VerticaTarget.create_marker_table, with_connection, bind in H.
    rewrite Hc in H. discriminate.
Qed.

Lemma exists_true_log {self : VerticaTarget.t} {c : Conn} {s s' : state W} :
  VerticaTarget.exists_ self (Some c) s = (Ok true, s') ->
  log s' = log s ++ [EvExecute c (VerticaTarget.select_sql self)
                       [(txt "uid", PStr (VerticaTarget.update_id self))];
                     EvFetchone c].
Proof.
  unfold VerticaTarget.exists_, VerticaTarget.or_connect, bind, ret,
    try_except, try_except_else.
  destruct (cursor_execute c _ _ s) as [[[]|e] s1] eqn:Hq.
  - destruct (cursor_fetchone c s1) as [[[r|]|e] s2] eqn:Hf.
    + intros H. injection H as <-.
      rewrite (log_fetchone Hf), (log_cursor_execute Hq).
      now rewrite <- app_assoc.
    + discriminate.
    + destruct e; discriminate.
  - destruct e; discriminate.
Qed.

Lemma touch_steps {self : VerticaTarget.t} {connection : option Conn}
    {s s' : state W} :
  VerticaTarget.touch self connection s = (Ok tt, s') ->
  exists c s1 s2 s3 s4,
    VerticaTarget.create_marker_table self s = (Ok tt, s1) /\
    VerticaTarget.or_connect self connection s1 = (Ok c, s2) /\
    cursor_execute c (VerticaTarget.insert_sql self)
      (VerticaTarget.marker_row self (clock_now (world s2))) s2
      = (Ok tt, s3) /\
    connection_commit c s3 = (Ok tt, s4) /\
    VerticaTarget.exists_ self (Some c) s4 = (Ok true, s').
Proof.
  intros H. unfold VerticaTarget.touch in H. unfold bind at 1 in H.
  destruct (VerticaTarget.create_marker_table self s) as [[[]|e] s1] eqn:E1;
    [|discriminate].
  unfold bind at 1 in H.
  destruct (VerticaTarget.or_connect self connection s1) as [[c|e] s2] eqn:E2;
    [|discriminate].
  unfold bind at 1 in H. rewrite touch_insert_step in H.
  destruct (cursor_execute c (VerticaTarget.insert_sql self)
              (VerticaTarget.marker_row self (clock_now (world s2))) s2)
    as [[[]|e] s3] eqn:E3; [|discriminate].
  unfold bind at 1 in H.
  destruct (connection_commit c s3) as [[[]|e] s4] eqn:E4; [|discriminate].
  unfold bind at 1 in H.
  destruct (VerticaTarget.exists_ self (Some c) s4) as [[[|]|e] s5] eqn:E5;
    try discriminate.
  injection H as <-. now exists c, s1, s2, s3, s4.
Qed.

(** What a successful [touch] on a given connection adds to the log. *)
Lemma touch_log (self : VerticaTarget.t) (c : Conn) (s s' : state W) :
  VerticaTarget.touch self (Some c) s = (Ok tt, s') ->
  exists l now,
    log s' = log s ++ l
             ++ [EvExecute c (VerticaTarget.insert_sql self)
                   (VerticaTarget.marker_row self now);
                 EvCommit c;
                 EvExecute c (VerticaTarget.select_sql self)
                   [(txt "uid", PStr (VerticaTarget.update_id self))];
                 EvFetchone c].
Proof.
  intros H.
  destruct (touch_steps H) as (c0 & s1 & s2 & s3 & s4 & E1 & E2 & E3 & E4 & E5).
  cbn in E2. injection E2 as <- <-.
  destruct (create_marker_table_log E1) as (c' & L1).
  exists [EvConnect (VerticaTarget.params self);
          EvExecute c' (VerticaTarget.create_sql self) [];
          EvExit c' false], (clock_now (world s1)).
  rewrite (exists_true_log E5), (log_commit E4), (log_cursor_execute E3), L1.
  now rewrite <- !app_assoc.
Qed.



End MarkerProperties.

(** ** CopyToTable *)

Section TaskProperties.
Context {W : Type} {env : Env W} {V : Type} {pv : PyValue V}.

#[local] Abbreviation task := (CopyToTable.t W V).

(** *** Staging *)

Lemma write_rows_ok (self : task) (rs : list (list V)) (s : state W) :
  Forall (fun row => forallb is_scalar (CopyToTable.rowstr self row) = true)
    rs ->
  exists s',
    CopyToTable.write_rows self rs s = (Ok tt, s') /\
    world s' = world s /\
    log s' = log s
             ++ map (fun row => EvWrite (utf8 (CopyToTable.rowstr self row))) rs /\
    tmp_file s' = tmp_file s ++ CopyToTable.staged_buffer self rs.
Proof.
  intros Hrs. revert s.
  induction Hrs as [|row rs Hrow _ IH]; intros s.
  - exists s. cbn. now rewrite !app_nil_r.
  - cbn [CopyToTable.write_rows]. unfold bind at 1, lift.
    unfold CopyToTable.encode_utf8, encode. rewrite Hrow.
    unfold bind at 1. cbn [tmp_write].
    match goal with |- context [CopyToTable.write_rows self rs ?s1] =>
      destruct (IH s1) as (s' & E & Hw & Hl & Hf) end.
    exists s'. split; [exact E|]. cbn in Hw, Hl, Hf.
    split; [exact Hw|]. split.
    + rewrite Hl. cbn [map]. now rewrite <- app_assoc.
    + rewrite Hf. unfold CopyToTable.staged_buffer. cbn [map List.concat].
      now rewrite <- app_assoc.
Qed.

Lemma write_rows_inv {self : task} {rs : list (list V)} {s s' : state W} :
  CopyToTable.write_rows self rs s = (Ok tt, s') ->
  Forall (fun row => forallb is_scalar (CopyToTable.rowstr self row) = true) rs.
Proof.
  revert s. induction rs as [|row rs IH]; intros s H; [constructor|].
  cbn [CopyToTable.write_rows] in H.
  unfold bind at 1, lift, CopyToTable.encode_utf8, encode in H.
  destruct (forallb is_scalar (CopyToTable.rowstr self row)) eqn:Hrow;
    [|discriminate].
  unfold bind at 1 in H. cbn [tmp_write] in H.
  constructor; [exact Hrow | eauto].
Qed.

Lemma connect_keeps_tmp {target : VerticaTarget.t} {s s1 : state W}
    {r : Result Conn} :
  VerticaTarget.connect target s = (r, s1) ->
  tmp_file s1 = tmp_file s /\ tmp_pos s1 = tmp_pos s.
Proof.
  unfold VerticaTarget.connect, vertica_connect, call.
  destruct (drv_connect _ _) as [r0 w]. intros H. now injection H as _ <-.
Qed.

Lemma staged_buffer_decodes (self : task) (rs : list (list V)) :
  Forall (fun row => forallb is_scalar (CopyToTable.rowstr self row) = true)
    rs ->
  utf8_decode (CopyToTable.staged_buffer self rs)
  = Some (List.concat (map (CopyToTable.rowstr self) rs)).
Proof.
  induction 1 as [|row rs Hrow _ IH]; [reflexivity|].
  unfold CopyToTable.staged_buffer in *. cbn [map List.concat].
  fold (CopyToTable.rowstr self row).
  rewrite utf8_decode_app by assumption. now rewrite IH.
Qed.

Lemma state_eq (s1 s2 : state W) :
  world s1 = world s2 -> log s1 = log s2 -> tmp_file s1 = tmp_file s2 ->
  tmp_pos s1 = tmp_pos s2 -> s1 = s2.
Proof. destruct s1, s2; cbn; now intros -> -> -> ->. Qed.

Lemma staged_ok {self : task} {target : VerticaTarget.t} {s s1 : state W}
    {c : Conn} :
  CopyToTable.encodable self ->
  VerticaTarget.connect target s = (Ok c, s1) ->
  CopyToTable.staged self target s = (Ok c, CopyToTable.after_staging self s1).
Proof.
  intros Henc Hc. unfold CopyToTable.staged. unfold bind at 1. rewrite Hc.
  destruct (write_rows_ok self s1 Henc) as (s2 & E & Hw & Hl & Hf).
  unfold bind at 1. rewrite E. unfold bind, tmp_seek, ret. f_equal.
  apply state_eq; cbn; congruence.
Qed.

(** [run], from the entry of the retry loop on. *)
Lemma run_staged {self : task} {target : VerticaTarget.t} {s s1 : state W}
    {c : Conn} :
  CopyToTable.truthy (CopyToTable.table self) = true ->
  CopyToTable.truthy (CopyToTable.columns self) = true ->
  CopyToTable.output self = Ok target ->
  CopyToTable.staged self target (set_tmp [] 0 s) = (Ok c, s1) ->
  CopyToTable.run self s
  = (let '(r, s2) := (CopyToTable.copy_loop self c (seq 0 2) ;;
                      VerticaTarget.touch target (Some c)) s1 in
     (r, CopyToTable.leave c r s2)).
Proof.
  intros Ht Hcols Hout Hst. unfold CopyToTable.run. rewrite Ht, Hcols.
  cbn [andb negb].
  unfold with_tempfile, with_connection, CopyToTable.staged, bind, lift, ret,
    tmp_seek in *.
  rewrite Hout.
  destruct (VerticaTarget.connect target (set_tmp [] 0 s)) as [[c0|e] s0];
    [|discriminate].
  destruct (CopyToTable.write_rows self (CopyToTable.rows self) s0)
    as [[[]|e] s0']; [|discriminate].
  injection Hst as <- <-.
  destruct (CopyToTable.copy_loop self c0 (seq 0 2) _) as [[[]|e] s2];
    [|reflexivity].
  now destruct (VerticaTarget.touch target (Some c0) s2).
Qed.

(** C10.  Without a table name, or without columns, [run] raises before it
    does anything else: the state, and with it the log of calls and the
    temporary file, is the one it started in. *)
Theorem run_requires_table_and_columns (self : task) (s : state W) :
  CopyToTable.table self = [] \/ CopyToTable.columns self = [] ->
  CopyToTable.run self s
  = (Raise (Exception_ "table and columns need to be specified"), s).
Proof.
  intros H. unfold CopyToTable.run.
  destruct H as [-> | ->]; cbn; [reflexivity|].
  now destruct (CopyToTable.table self).
Qed.

(** C6.  For every row sequence, the staging loop, when it completes, has
    appended to the file the buffer of the specification: the UTF-8 bytes of
    each row's mapped fields joined by the separator and closed by a
    newline, in row order; [map_column] gives the empty string for a value
    found in [null_values] and [text_type] of the value otherwise.  When
    every line is made of Unicode scalar values the loop does complete,
    decoding the buffer gives the lines back whatever the width of their
    characters, and this buffer, rewound, is the file [run] copies from. *)
Theorem staging_spec (self : task) (s : state W) :
  (forall s',
     CopyToTable.write_rows self (CopyToTable.rows self) s = (Ok tt, s') ->
     tmp_file s' = tmp_file s
                   ++ CopyToTable.staged_buffer self (CopyToTable.rows self)) /\
  (forall v,
     CopyToTable.map_column self v
     = if existsb (fun x => py_eq x v) (CopyToTable.null_values self)
       then [] else text_type v) /\
  (CopyToTable.encodable self ->
   (exists s',
      CopyToTable.write_rows self (CopyToTable.rows self) s = (Ok tt, s')) /\
   utf8_decode (CopyToTable.staged_buffer self (CopyToTable.rows self))
   = Some (List.concat (map (CopyToTable.rowstr self) (CopyToTable.rows self))) /\
   (forall target c s1,
      CopyToTable.truthy (CopyToTable.table self) = true ->
      CopyToTable.truthy (CopyToTable.columns self) = true ->
      CopyToTable.output self = Ok target ->
      VerticaTarget.connect target (set_tmp [] 0 s) = (Ok c, s1) ->
      let s2 := CopyToTable.after_staging self s1 in
      tmp_file s2 = CopyToTable.staged_buffer self (CopyToTable.rows self) /\
      tmp_pos s2 = 0 /\
      CopyToTable.run self s
      = (let '(r, s3) := (CopyToTable.copy_loop self c (seq 0 2) ;;
                          VerticaTarget.touch target (Some c)) s2 in
         (r, CopyToTable.leave c r s3)))).
Proof.
  split; [|split].
  - intros s' E.
    destruct (write_rows_ok self s (write_rows_inv E))
      as (s'' & E' & _ & _ & Hf).
    rewrite E in E'. now injection E' as ->.
  - reflexivity.
  - intros Henc. split; [|split].
    + destruct (write_rows_ok self s Henc) as (s' & E & _). now exists s'.
    + now apply staged_buffer_decodes.
    + intros target c s1 Ht Hcols Hout Hc s2. split; [|split].
      * subst s2. cbn. now rewrite (proj1 (connect_keeps_tmp Hc)).
      * reflexivity.
      * apply (run_staged Ht Hcols Hout). now apply staged_ok.
Qed.

(** *** The retry loop *)

Lemma emits_copy (P : event -> Prop) (self : task) (c : Conn) :
  (forall sql data, P (EvCopy c sql data)) -> emits P (CopyToTable.copy self c).
Proof.
  intros HP. unfold CopyToTable.copy.
  apply emits_bind; [apply emits_lift|]. intros names.
  apply emits_bind; [apply emits_lift|]. intros joined.
  now apply emits_cursor_copy.
Qed.

Lemma emits_copy_attempt (self : task) (c : Conn) :
  emits (fun ev => is_copy_event ev = true) (CopyToTable.copy_attempt self c).
Proof.
  unfold CopyToTable.copy_attempt.
  apply emits_bind; [now apply emits_call|]. intros _.
  apply emits_bind; [now apply emits_copy|]. intros _.
  now apply emits_call.
Qed.

Lemma copy_event_not_marker (ev : event) :
  is_copy_event ev = true -> is_marker_event ev = false.
Proof. now destruct ev. Qed.

Lemma emits_copy_loop (self : task) (c : Conn) (attempts : list nat) :
  emits (fun ev => is_marker_event ev = false)
    (CopyToTable.copy_loop self c attempts).
Proof.
  induction attempts as [|attempt rest IH]; cbn [CopyToTable.copy_loop].
  - apply emits_ret.
  - apply emits_try_except_else.
    + eapply emits_weaken; [apply copy_event_not_marker|].
      apply emits_copy_attempt.
    + intros e. destruct e; try apply emits_raise.
      destruct (Nat.eqb attempt 0); [|apply emits_raise].
      apply emits_bind; [now apply emits_call|]. intros _.
      apply emits_bind; [now apply emits_call|]. intros _. exact IH.
    + intros _. apply emits_ret.
Qed.

Lemma emits_write_rows (self : task) (rs : list (list V)) :
  emits (fun ev => is_marker_event ev = false) (CopyToTable.write_rows self rs).
Proof.
  induction rs as [|row rs IH]; cbn [CopyToTable.write_rows].
  - apply emits_ret.
  - apply emits_bind; [apply emits_lift|]. intros data.
    apply emits_bind; [now apply emits_tmp_write|]. intros _. exact IH.
Qed.

Lemma emits_staged (self : task) (target : VerticaTarget.t) :
  emits (fun ev => is_marker_event ev = false)
    (CopyToTable.staged self target).
Proof.
  unfold CopyToTable.staged.
  apply emits_bind; [now apply emits_call|]. intros c.
  apply emits_bind; [apply emits_write_rows|]. intros _.
  apply emits_bind; [apply emits_tmp_seek|]. intros _. apply emits_ret.
Qed.


Lemma copy_loop_first_fails {self : task} {c : Conn} {s s1 : state W}
    {e : exn} :
  CopyToTable.copy_attempt self c s = (Raise e, s1) ->
  e <> MissingRelation ->
  CopyToTable.copy_loop self c (seq 0 2) s = (Raise e, s1).
Proof.
  intros H He. cbn [seq CopyToTable.copy_loop]. unfold try_except_else.
  rewrite H. destruct e; try reflexivity. now elim He.
Qed.

Lemma copy_loop_retry {self : task} {c : Conn} {s s1 s2 s3 : state W} :
  CopyToTable.copy_attempt self c s = (Raise MissingRelation, s1) ->
  reset_connection c s1 = (Ok tt, s2) ->
  CopyToTable.call_create_table self c s2 = (Ok tt, s3) ->
  CopyToTable.copy_loop self c (seq 0 2) s
  = CopyToTable.copy_attempt self c s3.
Proof.
  intros H1 H2 H3. cbn [seq CopyToTable.copy_loop]. unfold try_except_else.
  rewrite H1. cbn [Nat.eqb]. unfold bind at 1. rewrite H2.
  unfold bind at 1. unfold CopyToTable.call_create_table in H3. rewrite H3.
  destruct (CopyToTable.copy_attempt self c s3) as [[[]|e] s4];
    [reflexivity|].
  destruct e; reflexivity.
Qed.

Lemma log_leave {A} (c : Conn) (r : Result A) (s : state W) :
  log (CopyToTable.leave c r s) = log s ++ [EvExit c (is_raise r)].
Proof. reflexivity. Qed.

Lemma log_reset_create {self : task} {c : Conn} {s1 s2 s3 : state W}
    {r1 r2 : Result unit} :
  reset_connection c s1 = (r1, s2) ->
  CopyToTable.call_create_table self c s2 = (r2, s3) ->
  log s3 = log s1 ++ [EvReset c; EvCreateTable c].
Proof.
  intros H2 H3.
  pose proof (log_call (EvReset c) (drv_reset c) s1) as L2.
  unfold reset_connection in H2. rewrite H2 in L2. cbn in L2.
  pose proof (log_call (EvCreateTable c) (CopyToTable.create_table self c) s2)
    as L3.
  unfold CopyToTable.call_create_table in H3. rewrite H3 in L3. cbn in L3.
  rewrite L3, L2. now rewrite <- app_assoc.
Qed.

(** C1.  When the first copy attempt of a load ends in a missing-relation
    error, [run] resets the connection and calls [create_table]; once these
    return, what is left of [run] is one more copy attempt, hooks included,
    and then [touch].  If that attempt ends in a missing-relation error
    again, [run] raises it: between the two attempts the log holds one
    reset and one table creation, and after the second attempt nothing but
    the exit of the connection. *)
Theorem run_retries_once (self : task) (target : VerticaTarget.t)
    (c : Conn) (s s1 s2 s3 s4 : state W) :
  CopyToTable.truthy (CopyToTable.table self) = true ->
  CopyToTable.truthy (CopyToTable.columns self) = true ->
  CopyToTable.output self = Ok target ->
  CopyToTable.staged self target (set_tmp [] 0 s) = (Ok c, s1) ->
  CopyToTable.copy_attempt self c s1 = (Raise MissingRelation, s2) ->
  reset_connection c s2 = (Ok tt, s3) ->
  CopyToTable.call_create_table self c s3 = (Ok tt, s4) ->
  log s4 = log s2 ++ [EvReset c; EvCreateTable c] /\
  CopyToTable.run self s
  = (let '(r, s5) := (CopyToTable.copy_attempt self c ;;
                      VerticaTarget.touch target (Some c)) s4 in
     (r, CopyToTable.leave c r s5)) /\
  (forall s5,
     CopyToTable.copy_attempt self c s4 = (Raise MissingRelation, s5) ->
     CopyToTable.run self s
     = (Raise MissingRelation,
        CopyToTable.leave c (@Raise unit MissingRelation) s5) /\
     exists l1 l2,
       log (CopyToTable.leave c (@Raise unit MissingRelation) s5)
       = log s1 ++ l1 ++ [EvReset c; EvCreateTable c] ++ l2 ++ [EvExit c true] /\
       Forall (fun ev => is_copy_event ev = true) l1 /\
       Forall (fun ev => is_copy_event ev = true) l2).
Proof.
  intros Ht Hcols Hout Hst H1 H2 H3.
  assert (Hrun : CopyToTable.run self s
                 = (let '(r, s5) := (CopyToTable.copy_attempt self c ;;
                                     VerticaTarget.touch target (Some c)) s4 in
                    (r, CopyToTable.leave c r s5))).
  { rewrite (run_staged Ht Hcols Hout Hst). unfold bind.
    now rewrite (copy_loop_retry H1 H2 H3). }
  split; [exact (log_reset_create H2 H3)|]. split; [exact Hrun|].
  intros s5 H4. split.
  - rewrite Hrun. unfold bind. now rewrite H4.
  - destruct (emits_run (emits_copy_attempt self c) H1) as (l1 & L1 & F1).
    destruct (emits_run (emits_copy_attempt self c) H4) as (l2 & L2 & F2).
    exists l1, l2. split; [|now split].
    rewrite log_leave, L2, (log_reset_create H2 H3), L1. cbn [is_raise].
    now rewrite <- !app_assoc.
Qed.

(** C2.  When the copy step of a load fails, on either attempt, with an
    error that is not a missing-relation error, [run] raises that error, and
    between its start and its end the log holds no statement and no commit:
    [touch] was not reached, no marker row was inserted. *)
Theorem failed_copy_leaves_no_marker (self : task) (target : VerticaTarget.t)
    (c : Conn) (s s1 s2 : state W) (e : exn) :
  CopyToTable.truthy (CopyToTable.table self) = true ->
  CopyToTable.truthy (CopyToTable.columns self) = true ->
  CopyToTable.output self = Ok target ->
  CopyToTable.staged self target (set_tmp [] 0 s) = (Ok c, s1) ->
  e <> MissingRelation ->
  CopyToTable.copy_step_fails self c s1 e s2 ->
  CopyToTable.run self s = (Raise e, CopyToTable.leave c (@Raise unit e) s2) /\
  exists l,
    log (CopyToTable.leave c (@Raise unit e) s2) = log s ++ l /\
    Forall (fun ev => is_marker_event ev = false) l.
Proof.
  intros Ht Hcols Hout Hst He Hfail.
  assert (Hloop : CopyToTable.copy_loop self c (seq 0 2) s1 = (Raise e, s2)).
  { destruct Hfail as [H1 | (sa & sb & sc & H1 & H2 & H3 & H4)].
    - exact (copy_loop_first_fails H1 He).
    - now rewrite (copy_loop_retry H1 H2 H3). }
  split.
  - rewrite (run_staged Ht Hcols Hout Hst). unfold bind. now rewrite Hloop.
  - destruct (emits_run (emits_staged self target) Hst) as (l0 & L0 & F0).
    destruct (emits_run (emits_copy_loop self c (seq 0 2)) Hloop)
      as (l1 & L1 & F1).
    exists (l0 ++ l1 ++ [EvExit c true]). split.
    + rewrite log_leave, L1, L0. cbn [is_raise log set_tmp].
      now rewrite <- !app_assoc.
    + apply Forall_app. split; [exact F0|].
      apply Forall_app. split; [exact F1|].
      constructor; [reflexivity | constructor].
Qed.

(** *** The shape of [columns], and empty loads *)

Lemma staged_inv {self : task} {target : VerticaTarget.t} {s s1 : state W}
    {c : Conn} :
  CopyToTable.staged self target s = (Ok c, s1) ->
  exists s0, VerticaTarget.connect target s = (Ok c, s0) /\
             s1 = CopyToTable.after_staging self s0.
Proof.
  intros H. pose proof H as H'. unfold CopyToTable.staged in H'.
  unfold bind at 1 in H'.
  destruct (VerticaTarget.connect target s) as [[c0|e] s0] eqn:Hc;
    [|discriminate].
  unfold bind at 1 in H'.
  destruct (CopyToTable.write_rows self (CopyToTable.rows self) s0)
    as [[[]|e] s0'] eqn:Hw; [|discriminate].
  unfold bind, tmp_seek, ret in H'. injection H' as <- _.
  exists s0. split; [reflexivity|].
  pose proof (staged_ok (write_rows_inv Hw) Hc) as H''.
  rewrite H in H''. now injection H'' as ->.
Qed.

Lemma copy_attempt_copy_fails {self : task} {c : Conn} {s s1 : state W}
    {e : exn} :
  call (EvInitCopy c) (CopyToTable.init_copy self c) s = (Ok tt, s1) ->
  CopyToTable.copy self c s1 = (Raise e, s1) ->
  CopyToTable.copy_attempt self c s = (Raise e, s1).
Proof.
  intros Hi Hc. unfold CopyToTable.copy_attempt. unfold bind at 1.
  rewrite Hi. unfold bind at 1. now rewrite Hc.
Qed.

(** C7, as amended.  When the first element of [columns] is a tuple or a
    list whose length is not 2, [copy] raises the configuration error and
    sends no COPY statement.  In [run] this happens inside the first copy
    attempt: the connection is open, every row is written to the file and
    [init_copy] has been called by then; the error leaves [run], and no
    marker is recorded. *)
Theorem malformed_columns_raise_at_copy (self : task) (items : list PyObj)
    (rest : list PyObj) :
  CopyToTable.columns self = OSeq items :: rest ->
  List.length items <> 2 ->
  let err := ExceptionFmt CopyToTable.columns_error (OSeq items) in
  (forall c s, CopyToTable.copy self c s = (Raise err, s)) /\
  (forall target c (s s1 s2 : state W),
     CopyToTable.truthy (CopyToTable.table self) = true ->
     CopyToTable.output self = Ok target ->
     CopyToTable.staged self target (set_tmp [] 0 s) = (Ok c, s1) ->
     call (EvInitCopy c) (CopyToTable.init_copy self c) s1 = (Ok tt, s2) ->
     CopyToTable.run self s
     = (Raise err, CopyToTable.leave c (@Raise unit err) s2) /\
     log (CopyToTable.leave c (@Raise unit err) s2)
     = log s ++ [EvConnect (VerticaTarget.params target)]
         ++ map (fun row => EvWrite (utf8 (CopyToTable.rowstr self row)))
              (CopyToTable.rows self)
         ++ [EvInitCopy c; EvExit c true]).
Proof.
  intros Hcols Hlen err.
  assert (Hcopy : forall c s, CopyToTable.copy self c s = (Raise err, s)).
  { intros c s. unfold CopyToTable.copy, CopyToTable.column_names.
    rewrite Hcols. cbn [is_str py_len].
    destruct (Nat.eqb_spec (List.length items) 2) as [E|_]; [now elim Hlen|].
    reflexivity. }
  split; [exact Hcopy|].
  intros target c s s1 s2 Ht Hout Hst Hi.
  assert (Hloop : CopyToTable.copy_loop self c (seq 0 2) s1 = (Raise err, s2)).
  { apply copy_loop_first_fails; [|discriminate].
    exact (copy_attempt_copy_fails Hi (Hcopy c s2)). }
  split.
  - assert (Hc2 : CopyToTable.truthy (CopyToTable.columns self) = true)
      by now rewrite Hcols.
    rewrite (run_staged Ht Hc2 Hout Hst). unfold bind. now rewrite Hloop.
  - destruct (staged_inv Hst) as (s0 & Hc & ->).
    pose proof (log_call (EvInitCopy c) (CopyToTable.init_copy self c)
                  (CopyToTable.after_staging self s0)) as Li.
    rewrite Hi in Li. cbn [snd] in Li.
    rewrite log_leave, Li. cbn [CopyToTable.after_staging log is_raise].
    rewrite (log_connect Hc). cbn [set_tmp log].
    now rewrite <- !app_assoc.
Qed.




End TaskProperties.

(** ** The properties on concrete runs *)

Section Runs.

Import Script.

Ltac run_it := vm_compute; reflexivity.

Lemma run_retries_once_witness :
  CopyToTable.run load (start missing_twice)
  = (Raise MissingRelation,
     CopyToTable.leave 0 (@Raise unit MissingRelation) retry_second).
Proof.
  refine (proj1 (proj2 (proj2
            (@run_retries_once sim env value py_value load target 0
               (start missing_twice) retry_staged retry_first retry_reset
               retry_created _ _ _ _ _ _ _)) retry_second _)); run_it.
Defined.

Lemma failed_copy_leaves_no_marker_witness :
  CopyToTable.run load (start copy_breaks)
  = (Raise (DatabaseError 4856),
     CopyToTable.leave 0 (@Raise unit (DatabaseError 4856)) broken_first).
Proof.
  refine (proj1
            (@failed_copy_leaves_no_marker sim env value py_value load target
               0 (start copy_breaks) broken_staged broken_first
               (DatabaseError 4856) _ _ _ _ _ _)); try run_it.
  - discriminate.
  - left. run_it.
Defined.


Lemma exists_spec_witness :
  exists s', VerticaTarget.exists_ target (Some 0) (start marker_missing)
             = (Ok false, s').
Proof.
  eexists.
  refine (proj1 (proj2
            (@exists_spec sim env target (Some 0) 0 (start marker_missing)
               (start marker_missing) _)) _ _); run_it.
Defined.

Lemma create_marker_table_spec_witness :
  fst (VerticaTarget.create_marker_table target (start marker_exists)) = Ok tt.
Proof.
  rewrite (proj1
             (@create_marker_table_spec sim env target (start marker_exists)
                marker_connected marker_refused 0 (Raise DuplicateObject)
                ltac:(run_it) ltac:(run_it))).
  reflexivity.
Defined.

Lemma staging_spec_witness :
  utf8_decode (CopyToTable.staged_buffer load test_rows)
  = Some (List.concat (map (CopyToTable.rowstr load) test_rows)).
Proof.
  refine (proj1 (proj2
            (proj2 (proj2 (@staging_spec sim env value py_value load
                             (start []))) _))).
  repeat constructor.
Defined.

Lemma malformed_columns_raise_at_copy_witness :
  fst (CopyToTable.run triple_load (start []))
  = Raise (ExceptionFmt CopyToTable.columns_error
             (OSeq [OStr (txt "test_text"); OStr (txt "varchar");
                    OStr (txt "x")])).
Proof.
  rewrite (proj1
             (proj2 (@malformed_columns_raise_at_copy sim env value py_value
                       triple_load
                       [OStr (txt "test_text"); OStr (txt "varchar");
                        OStr (txt "x")] []
                       eq_refl ltac:(cbn; discriminate))
                target 0 (start []) triple_staged triple_inited
                ltac:(run_it) ltac:(run_it) ltac:(run_it) ltac:(run_it))).
  reflexivity.
Defined.


Lemma init_splits_host_port_witness :
  exists target,
    VerticaTarget.init (env := env) (txt "localhost:5433") (txt "vertica")
      (txt "dbadmin") [] (txt "test_table") (txt "TestVerticaTask()")
      (PortInt 5434) = Ok target /\
    VerticaTarget.host target = txt "localhost" /\
    VerticaTarget.port target = PortStr (txt "5433").
Proof.
  destruct (proj1 (@init_splits_host_port sim env (txt "localhost")
                     (txt "5433") (txt "vertica") (txt "dbadmin") []
                     (txt "test_table") (txt "TestVerticaTask()")
                     (PortInt 5434)) eq_refl eq_refl)
    as (t & Hi & Hh & Hp & _).
  exists t. split; [exact Hi|]. now split.
Defined.

Lemma run_requires_table_and_columns_witness :
  CopyToTable.run (task [] test_rows) (start [])
  = (Raise (Exception_ "table and columns need to be specified"), start []).
Proof.
  apply (@run_requires_table_and_columns sim env value py_value
           (task [] test_rows) (start [])).
  right. reflexivity.
Defined.

(** C7, as stated, fails.  The columns below have neither accepted shape.
    With a first element of three items [run] does raise the configuration
    error, but not before anything else: the connection is open, the three
    rows are written and [init_copy] is called by then.  With a pair first
    and a triple after it [run] raises nothing at all. *)
Lemma columns_checked_late :
  CopyToTable.flat_names triple_columns = false /\
  CopyToTable.name_type_pairs triple_columns = false /\
  (let r := CopyToTable.run triple_load (start []) in
   fst r = Raise (ExceptionFmt CopyToTable.columns_error
                    (OSeq [OStr (txt "test_text"); OStr (txt "varchar");
                           OStr (txt "x")])) /\
   log (snd r)
   = EvConnect (VerticaTarget.params target)
       :: map (fun row =>
                 EvWrite (utf8 (CopyToTable.rowstr triple_load row)))
            test_rows
       ++ [EvInitCopy 0; EvExit 0 true] /\
   ~ (exists e, CopyToTable.run triple_load (start [])
                = (Raise e, start []))) /\
  CopyToTable.flat_names mixed_columns = false /\
  CopyToTable.name_type_pairs mixed_columns = false /\
  fst (CopyToTable.run (task mixed_columns test_rows) (start [])) = Ok tt.
Proof.
  split; [reflexivity|]. split; [reflexivity|]. split.
  - split; [vm_compute; reflexivity|]. split; [vm_compute; reflexivity|].
    intros (e & H). apply (f_equal (fun r => log (snd r))) in H.
    vm_compute in H. discriminate.
  - split; [reflexivity|]. split; [reflexivity|]. vm_compute. reflexivity.
Qed.

(** C9.  The code fails the claim.  The host string below is an address
    with a port after the separator, as the docstring of the constructor
    allows ("Possibly a host:port string"), yet the constructor builds no
    target from it and parses no host and port: the tuple assignment of
    [host.split(':')] raises [ValueError]. *)
Lemma init_rejects_second_colon :
  contains colon ipv6_host = true /\
  VerticaTarget.init (env := env) ipv6_host (txt "vertica") (txt "dbadmin")
    [] (txt "test_table") (txt "TestVerticaTask()") PortNone
  = Raise ValueError /\
  ~ (exists target,
       VerticaTarget.init (env := env) ipv6_host (txt "vertica")
         (txt "dbadmin") [] (txt "test_table") (txt "TestVerticaTask()")
         PortNone = Ok target).
Proof.
  split; [reflexivity|]. split; [reflexivity|].
  intros (t & H). vm_compute in H. discriminate.
Qed.


End Runs.

(** * Further properties *)

(** ** Splitting and joining *)

Section SplitJoin.

Lemma split_count (c : N) (s : text) :
  List.length (split c s) = S (count_occ N.eq_dec s c).
Proof.
  induction s as [|x s IH]; [reflexivity|].
  cbn [split count_occ].
  destruct (N.eqb_spec x c) as [->|Hne].
  - destruct (N.eq_dec c c) as [_|H]; [|now elim H]. cbn. now rewrite IH.
  - destruct (N.eq_dec x c) as [H|_]; [now elim Hne|].
    rewrite <- IH. now destruct (split c s).
Qed.

Lemma contains_count (c : N) (s : text) :
  contains c s = false <-> count_occ N.eq_dec s c = 0.
Proof.
  induction s as [|x s IH]; [easy|].
  cbn [contains existsb count_occ]. fold (contains c s).
  rewrite N.eqb_sym.
  destruct (N.eqb_spec x c) as [->|Hne].
  - destruct (N.eq_dec c c) as [_|H]; [|now elim H]. cbn. easy.
  - destruct (N.eq_dec x c) as [H|_]; [now elim Hne|]. cbn. exact IH.
Qed.

Lemma join_split (c : N) (s : text) : join [c] (split c s) = s.
Proof.
  induction s as [|x s IH]; [reflexivity|].
  cbn [split]. pose proof (split_nonempty c s) as Hs.
  destruct (N.eqb_spec x c) as [->|Hne].
  - destruct (split c s) as [|p ps] eqn:E; [easy|].
    change (join [c] ([] :: p :: ps)) with ([] ++ [c] ++ join [c] (p :: ps)).
    now rewrite IH.
  - destruct (split c s) as [|p ps] eqn:E; [easy|].
    destruct ps as [|q qs].
    + cbn in IH. cbn. now rewrite IH.
    + change (join [c] ((x :: p) :: q :: qs))
        with (x :: join [c] (p :: q :: qs)).
      now rewrite IH.
Qed.

Lemma split_pieces_clean (c : N) (s : text) :
  Forall (fun piece => contains c piece = false) (split c s).
Proof.
  induction s as [|x s IH]; [now repeat constructor|].
  cbn [split]. destruct (N.eqb_spec x c) as [->|Hne].
  - constructor; [reflexivity | exact IH].
  - pose proof (split_nonempty c s) as Hs.
    destruct (split c s) as [|p ps]; [easy|].
    inversion IH as [|? ? Hp Hps]; subst.
    constructor; [|exact Hps].
    cbn [contains existsb]. fold (contains c p). rewrite Hp.
    rewrite N.eqb_sym. now destruct (N.eqb_spec x c).
Qed.

End SplitJoin.

(** ** VerticaTarget, further *)

Section TargetFurther.
Context {W : Type} {env : Env W}.

(** X1.  The constructor builds a target exactly when the host string holds
    at most one [':'].  The target then loses nothing of the string: without
    a [':'] it keeps the host and the [port] argument as given; with one,
    host, [':'] and port put together again are the string.  The target
    carries the configured marker table and database-side timestamps. *)
Theorem init_succeeds_iff_one_separator
    (host database user password table update_id : text) (port : port_val) :
  ((exists target,
      VerticaTarget.init (env := env) host database user password table
        update_id port = Ok target) <-> separators host <= 1) /\
  (forall target,
     VerticaTarget.init (env := env) host database user password table
       update_id port = Ok target ->
     (separators host = 0 ->
      VerticaTarget.host target = host /\ VerticaTarget.port target = port) /\
     (separators host = 1 ->
      exists p, VerticaTarget.port target = PortStr p /\
                VerticaTarget.host target ++ colon :: p = host) /\
     VerticaTarget.database target = database /\
     VerticaTarget.user target = user /\
     VerticaTarget.password target = password /\
     VerticaTarget.table target = table /\
     VerticaTarget.update_id target = update_id /\
     VerticaTarget.marker_table target = cfg_marker_table /\
     VerticaTarget.use_db_timestamps target = true).
Proof.
  unfold separators, VerticaTarget.init.
  pose proof (split_count colon host) as Hlen.
  pose proof (join_split colon host) as Hjoin.
  pose proof (contains_count colon host) as Hcont.
  destruct (contains colon host) eqn:Hc.
  - assert (Hpos : count_occ N.eq_dec host colon <> 0).
    { intros H0. apply Hcont in H0. discriminate. }
    destruct (split colon host) as [|h [|p [|q l]]]; cbn in Hlen; split.
    + lia.
    + discriminate.
    + split; [intros (t & H); discriminate | lia].
    + discriminate.
    + split; [lia | intros _; eexists; reflexivity].
    + intros t H. injection H as <-. cbn.
      split; [lia|]. split; [|repeat split].
      intros _. exists p. split; [reflexivity|]. exact Hjoin.
    + split; [intros (t & H); discriminate | lia].
    + discriminate.
  - assert (H0 : count_occ N.eq_dec host colon = 0) by now apply Hcont.
    split.
    + split; [lia | intros _; eexists; reflexivity].
    + intros t H. injection H as <-. cbn.
      split; [easy|]. split; [lia | repeat split].
Qed.

Lemma exists_after_connect {self : VerticaTarget.t} {s s1 : state W}
    {c : Conn} :
  VerticaTarget.connect self s = (Ok c, s1) ->
  VerticaTarget.exists_ self None s = VerticaTarget.exists_ self (Some c) s1.
Proof.
  intros Hc. unfold VerticaTarget.exists_, VerticaTarget.or_connect.
  unfold bind at 1 3. now rewrite Hc.
Qed.

Lemma exists_given_log (self : VerticaTarget.t) (c : Conn) (s : state W) :
  let lookup :=
    EvExecute c (VerticaTarget.select_sql self)
      [(txt "uid", PStr (VerticaTarget.update_id self))] in
  let s' := snd (VerticaTarget.exists_ self (Some c) s) in
  log s' = log s ++ [lookup] \/ log s' = log s ++ [lookup; EvFetchone c].
Proof.
  intros lookup.
  unfold VerticaTarget.exists_, VerticaTarget.or_connect, bind, ret,
    try_except, try_except_else.
  destruct (cursor_execute c _ _ s) as [[[]|e] s1] eqn:Hq.
  - right. destruct (cursor_fetchone c s1) as [[r|e] s2] eqn:Hf.
    + cbn. rewrite (log_fetchone Hf), (log_cursor_execute Hq).
      now rewrite <- app_assoc.
    + assert (L : log s2 = log s ++ [lookup; EvFetchone c]).
      { rewrite (log_fetchone Hf), (log_cursor_execute Hq).
        now rewrite <- app_assoc. }
      destruct e; exact L.
  - left. pose proof (log_cursor_execute Hq) as L.
    destruct e; exact L.
Qed.

(** X2.  [exists] only reads.  On a given connection it sends its one
    SELECT and fetches at most once; without one it first opens a connection
    with the target's parameters.  It never commits and never leaves the
    connection it works on. *)
Theorem exists_only_reads (self : VerticaTarget.t) (s : state W) :
  let lookup c :=
    EvExecute c (VerticaTarget.select_sql self)
      [(txt "uid", PStr (VerticaTarget.update_id self))] in
  (forall c,
     let s' := snd (VerticaTarget.exists_ self (Some c) s) in
     log s' = log s ++ [lookup c] \/
     log s' = log s ++ [lookup c; EvFetchone c]) /\
  (let s' := snd (VerticaTarget.exists_ self None s) in
   (exists e, fst (VerticaTarget.connect self s) = Raise e /\
              fst (VerticaTarget.exists_ self None s) = Raise e /\
              log s' = log s ++ [EvConnect (VerticaTarget.params self)]) \/
   exists c,
     fst (VerticaTarget.connect self s) = Ok c /\
     (log s' = log s ++ [EvConnect (VerticaTarget.params self); lookup c] \/
      log s' = log s ++ [EvConnect (VerticaTarget.params self); lookup c;
                         EvFetchone c])).
Proof.
  intros lookup. split; [intros c; apply exists_given_log|].
  destruct (VerticaTarget.connect self s) as [[c|e] s1] eqn:Hc.
  - right. exists c. split; [reflexivity|].
    rewrite (exists_after_connect Hc).
    pose proof (exists_given_log self c s1) as H. cbn zeta in H.
    rewrite (log_connect Hc) in H. rewrite <- !app_assoc in H.
    exact H.
  - left. exists e. split; [reflexivity|].
    assert (E : VerticaTarget.exists_ self None s = (Raise e, s1)).
    { unfold VerticaTarget.exists_, VerticaTarget.or_connect.
      unfold bind at 1. now rewrite Hc. }
    rewrite E. split; [reflexivity | exact (log_connect Hc)].
Qed.

(** X3.  [touch] stops at its first failing step.  An error of
    [create_marker_table] ends it before any INSERT; an error of the INSERT
    ends it before the commit; an error of the commit ends it before the
    read-back. *)
Theorem touch_stops_at_first_failure (self : VerticaTarget.t)
    (connection : option Conn) (s : state W) (e : exn) :
  (forall s1,
     VerticaTarget.create_marker_table self s = (Raise e, s1) ->
     VerticaTarget.touch self connection s = (Raise e, s1)) /\
  (forall c s1 s2 s3,
     VerticaTarget.create_marker_table self s = (Ok tt, s1) ->
     VerticaTarget.or_connect self connection s1 = (Ok c, s2) ->
     cursor_execute c (VerticaTarget.insert_sql self)
       (VerticaTarget.marker_row self (clock_now (world s2))) s2
       = (Raise e, s3) ->
     VerticaTarget.touch self connection s = (Raise e, s3) /\
     log s3 = log s2 ++ [EvExecute c (VerticaTarget.insert_sql self)
                           (VerticaTarget.marker_row self
                              (clock_now (world s2)))]) /\
  (forall c s1 s2 s3 s4,
     VerticaTarget.create_marker_table self s = (Ok tt, s1) ->
     VerticaTarget.or_connect self connection s1 = (Ok c, s2) ->
     cursor_execute c (VerticaTarget.insert_sql self)
       (VerticaTarget.marker_row self (clock_now (world s2))) s2
       = (Ok tt, s3) ->
     connection_commit c s3 = (Raise e, s4) ->
     VerticaTarget.touch self connection s = (Raise e, s4) /\
     log s4 = log s2 ++ [EvExecute c (VerticaTarget.insert_sql self)
                           (VerticaTarget.marker_row self
                              (clock_now (world s2)));
                         EvCommit c]).
Proof.
  split; [|split].
  - intros s1 E1. unfold VerticaTarget.touch. unfold bind at 1.
    now rewrite E1.
  - intros c s1 s2 s3 E1 E2 E3. split.
    + unfold VerticaTarget.touch. unfold bind at 1. rewrite E1.
      unfold bind at 1. rewrite E2.
      unfold bind at 1. now rewrite touch_insert_step, E3.
    + exact (log_cursor_execute E3).
  - intros c s1 s2 s3 s4 E1 E2 E3 E4. split.
    + unfold VerticaTarget.touch. unfold bind at 1. rewrite E1.
      unfold bind at 1. rewrite E2.
      unfold bind at 1. rewrite touch_insert_step, E3.
      unfold bind at 1. now rewrite E4.
    + rewrite (log_commit E4), (log_cursor_execute E3).
      now rewrite <- app_assoc.
Qed.

(** X4.  [create_marker_table] never keeps a connection.  When it cannot
    connect it raises the error of the connection and sends nothing; when it
    connects it sends its one statement and leaves the connection, flagged
    as failing exactly when it raises. *)
Theorem create_marker_table_always_exits (self : VerticaTarget.t)
    (s s' : state W) (r : Result unit) :
  VerticaTarget.create_marker_table self s = (r, s') ->
  (exists e, VerticaTarget.connect self s = (Raise e, s') /\ r = Raise e /\
             log s' = log s ++ [EvConnect (VerticaTarget.params self)]) \/
  (exists c, fst (VerticaTarget.connect self s) = Ok c /\
             log s' = log s ++ [EvConnect (VerticaTarget.params self);
                                EvExecute c (VerticaTarget.create_sql self) [];
                                EvExit c (is_raise r)]).
Proof.
  intros H.
  destruct (VerticaTarget.connect self s) as [[c|e] s0] eqn:Hc.
  - right. exists c. split; [reflexivity|].
    destruct (cursor_execute c (VerticaTarget.create_sql self) [] s0)
      as [r0 s2] eqn:Hx.
    rewrite (create_marker_table_eq Hc Hx) in H.
    injection H as <- <-. cbn [log set_world add_log].
    rewrite (log_cursor_execute Hx), (log_connect Hc).
    now rewrite <- !app_assoc.
  - left. exists e.
    unfold VerticaTarget.create_marker_table, with_connection, bind in H.
    rewrite Hc in H. injection H as <- <-.
    split; [reflexivity|]. split; [reflexivity|]. exact (log_connect Hc).
Qed.

End TargetFurther.

(** ** VerticaQuery *)

Section QueryProperties.
Context {W : Type} {env : Env W}.

Lemma query_run_eq {self : VerticaQuery.t} {target : VerticaTarget.t}
    {s s1 : state W} {c : Conn} :
  VerticaQuery.output (env := env) self = Ok target ->
  VerticaTarget.connect target s = (Ok c, s1) ->
  VerticaQuery.run self s
  = (let '(r, s2) := (cursor_execute c (VerticaQuery.query self) [] ;;
                      VerticaTarget.touch target (Some c)) s1 in
     (r, closed c r s2)).
Proof.
  intros Hout Hc. unfold VerticaQuery.run, with_connection, bind, lift, closed.
  rewrite Hout, Hc.
  destruct (cursor_execute c (VerticaQuery.query self) [] s1)
    as [[[]|e] s2]; [|reflexivity].
  now destruct (VerticaTarget.touch target (Some c) s2).
Qed.

(** X5.  A query task does not retry.  When its statement raises, be it a
    missing-relation error, [run] raises the same error after one attempt:
    the log holds the connection, the statement and the exit, and no
    marker is recorded. *)
Theorem query_failure_propagates (self : VerticaQuery.t)
    (target : VerticaTarget.t) (c : Conn) (s s1 s2 : state W) (e : exn) :
  VerticaQuery.output (env := env) self = Ok target ->
  VerticaTarget.connect target s = (Ok c, s1) ->
  cursor_execute c (VerticaQuery.query self) [] s1 = (Raise e, s2) ->
  VerticaQuery.run self s = (Raise e, closed c (@Raise unit e) s2) /\
  log (closed c (@Raise unit e) s2)
  = log s ++ [EvConnect (VerticaTarget.params target);
              EvExecute c (VerticaQuery.query self) [];
              EvExit c true].
Proof.
  intros Hout Hc Hq. split.
  - rewrite (query_run_eq Hout Hc). unfold bind. now rewrite Hq.
  - unfold closed. cbn [log set_world add_log is_raise].
    rewrite (log_cursor_execute Hq), (log_connect Hc).
    now rewrite <- !app_assoc.
Qed.

Lemma query_success_touches_core (self : VerticaQuery.t)
    (target : VerticaTarget.t) (c : Conn) (s s1 s2 s3 : state W)
    (r : Result unit) :
  VerticaQuery.output (env := env) self = Ok target ->
  VerticaTarget.connect target s = (Ok c, s1) ->
  cursor_execute c (VerticaQuery.query self) [] s1 = (Ok tt, s2) ->
  VerticaTarget.touch target (Some c) s2 = (r, s3) ->
  VerticaQuery.run self s = (r, closed c r s3) /\
  log s2 = log s ++ [EvConnect (VerticaTarget.params target);
                     EvExecute c (VerticaQuery.query self) []] /\
  (r = Ok tt ->
   exists l now,
     log (closed c r s3)
     = log s2 ++ l
       ++ [EvExecute c (VerticaTarget.insert_sql target)
             (VerticaTarget.marker_row target now);
           EvCommit c;
           EvExecute c (VerticaTarget.select_sql target)
             [(txt "uid", PStr (VerticaTarget.update_id target))];
           EvFetchone c; EvExit c false]).
Proof.
  intros Hout Hc Hq Ht. split; [|split].
  - rewrite (query_run_eq Hout Hc). unfold bind. now rewrite Hq, Ht.
  - rewrite (log_cursor_execute Hq), (log_connect Hc).
    now rewrite <- !app_assoc.
  - intros ->. destruct (touch_log target c s2 Ht) as (l & now & L).
    exists l, now. unfold closed. cbn [log set_world add_log is_raise].
    rewrite L. now rewrite <- !app_assoc.
Qed.

(** X6.  When the statement of a query task succeeds, it has been sent
    once, and [run] ends as the [touch] that follows on the same connection
    ends: it returns only when the marker has been inserted, with
    [INSERT INTO <marker table> (update_id, target_table) VALUES (:uid, :table)],
    committed and read back, and it passes on the error of [touch]
    otherwise. *)
Theorem query_success_touches (self : VerticaQuery.t)
    (target : VerticaTarget.t) (c : Conn) (s s1 s2 s3 : state W)
    (r : Result unit) :
  VerticaQuery.output (env := env) self = Ok target ->
  VerticaTarget.connect target s = (Ok c, s1) ->
  cursor_execute c (VerticaQuery.query self) [] s1 = (Ok tt, s2) ->
  VerticaTarget.touch target (Some c) s2 = (r, s3) ->
  VerticaQuery.run self s = (r, closed c r s3) /\
  log s2 = log s ++ [EvConnect (VerticaTarget.params target);
                     EvExecute c (VerticaQuery.query self) []] /\
  (r = Ok tt ->
   exists l now,
     log (closed c r s3)
     = log s2 ++ l
       ++ [EvExecute c (VerticaTarget.insert_sql target)
             (VerticaTarget.marker_row target now);
           EvCommit c;
           EvExecute c (VerticaTarget.select_sql target)
             [(txt "uid", PStr (VerticaTarget.update_id target))];
           EvFetchone c; EvExit c false]) /\
  VerticaTarget.insert_sql target
  = txt "INSERT INTO " ++ VerticaTarget.marker_table target
    ++ (if VerticaTarget.use_db_timestamps target
        then txt " (update_id, target_table) VALUES (:uid, :table)"
        else txt " (update_id, target_table, inserted) VALUES (:uid, :table, :time)") /\
  (forall clock,
     VerticaTarget.marker_row target clock
     = (txt "uid", PStr (VerticaTarget.update_id target))
         :: (txt "table", PStr (VerticaTarget.table target))
         :: (if VerticaTarget.use_db_timestamps target then []
             else [(txt "time", PTime clock)])) /\
  VerticaTarget.select_sql target
  = txt "SELECT 1 FROM " ++ VerticaTarget.marker_table target
    ++ txt " WHERE update_id = :uid LIMIT 1".
Proof.
  intros Hout Hc Hq Ht.
  destruct (@query_success_touches_core self target c s s1 s2 s3 r
              Hout Hc Hq Ht) as (A & B & C).
  split; [exact A|]. split; [exact B|]. split; [exact C|].
  unfold VerticaTarget.insert_sql, VerticaTarget.marker_row,
    VerticaTarget.select_sql.
  now destruct (VerticaTarget.use_db_timestamps target).
Qed.

End QueryProperties.

(** ** The temporary file during the retry loop *)

Section FileProperties.
Context {W : Type} {env : Env W} {V : Type} {pv : PyValue V}.

#[local] Abbreviation task := (CopyToTable.t W V).

Variable I : state W -> Prop.
Variable P : event -> Prop.
Hypothesis I_file : file_invariant I.

Lemma under_ret {A} (a : A) : emits_under I P (@ret W A a).
Proof.
  intros s Hs. split; [exact Hs|]. exists []. cbn. now rewrite app_nil_r.
Qed.

Lemma under_raise {A} (e : exn) : emits_under I P (@raise W A e).
Proof.
  intros s Hs. split; [exact Hs|]. exists []. cbn. now rewrite app_nil_r.
Qed.

Lemma under_lift {A} (r : Result A) : emits_under I P (@lift W A r).
Proof.
  intros s Hs. split; [exact Hs|]. exists []. cbn. now rewrite app_nil_r.
Qed.

Lemma under_bind {A B} (m : M W A) (k : A -> M W B) :
  emits_under I P m -> (forall a, emits_under I P (k a)) ->
  emits_under I P (bind m k).
Proof.
  intros Hm Hk s Hs. unfold bind.
  destruct (Hm s Hs) as (I1 & l1 & E1 & F1).
  destruct (m s) as [[a|e] s1]; cbn in I1, E1.
  - destruct (Hk a s1 I1) as (I2 & l2 & E2 & F2).
    split; [exact I2|]. exists (l1 ++ l2). rewrite E2, E1, app_assoc.
    split; [reflexivity | now apply Forall_app].
  - split; [exact I1|]. exists l1. now split.
Qed.

Lemma under_try_except_else {A B} (body : M W A) (handler : exn -> M W B)
    (orelse : A -> M W B) :
  emits_under I P body -> (forall e, emits_under I P (handler e)) ->
  (forall a, emits_under I P (orelse a)) ->
  emits_under I P (try_except_else body handler orelse).
Proof.
  intros Hb Hh Ho s Hs. unfold try_except_else.
  destruct (Hb s Hs) as (I1 & l1 & E1 & F1).
  destruct (body s) as [[a|e] s1]; cbn in I1, E1.
  - destruct (Ho a s1 I1) as (I2 & l2 & E2 & F2).
    split; [exact I2|]. exists (l1 ++ l2). rewrite E2, E1, app_assoc.
    split; [reflexivity | now apply Forall_app].
  - destruct (Hh e s1 I1) as (I2 & l2 & E2 & F2).
    split; [exact I2|]. exists (l1 ++ l2). rewrite E2, E1, app_assoc.
    split; [reflexivity | now apply Forall_app].
Qed.

Lemma under_call {A} (ev : event) (f : W -> Result A * W) :
  P ev -> emits_under I P (call ev f).
Proof.
  intros Hev s Hs. unfold call. destruct (f (world s)) as [r w]. cbn. split.
  - now apply (I_file (s := s)).
  - exists [ev]. split; [reflexivity | now constructor].
Qed.

Lemma under_cursor_copy (c : Conn) (sql : text) :
  (forall s, I s -> P (EvCopy c sql (skipn (tmp_pos s) (tmp_file s)))) ->
  emits_under I P (cursor_copy c sql).
Proof.
  intros Hev s Hs. unfold cursor_copy.
  destruct (drv_copy c sql (skipn (tmp_pos s) (tmp_file s)) (world s))
    as [[r n] w]. cbn. split.
  - apply (I_file (s := s)); cbn; [exact Hs | reflexivity | lia].
  - exists [EvCopy c sql (skipn (tmp_pos s) (tmp_file s))].
    split; [reflexivity|]. constructor; [now apply Hev | constructor].
Qed.

Hypothesis P_copy :
  forall s c sql, I s -> P (EvCopy c sql (skipn (tmp_pos s) (tmp_file s))).
Hypothesis P_loop :
  forall ev, is_loop_event ev = true -> is_copy_call ev = false -> P ev.

Lemma under_copy_attempt (self : task) (c : Conn) :
  emits_under I P (CopyToTable.copy_attempt self c).
Proof.
  unfold CopyToTable.copy_attempt.
  apply under_bind; [now apply under_call, P_loop|]. intros _.
  apply under_bind.
  - unfold CopyToTable.copy.
    apply under_bind; [apply under_lift|]. intros names.
    apply under_bind; [apply under_lift|]. intros joined.
    apply under_cursor_copy. intros s. apply P_copy.
  - intros _. now apply under_call, P_loop.
Qed.

Lemma under_copy_loop (self : task) (c : Conn) (attempts : list nat) :
  emits_under I P (CopyToTable.copy_loop self c attempts).
Proof.
  induction attempts as [|attempt rest IH]; cbn [CopyToTable.copy_loop].
  - apply under_ret.
  - apply under_try_except_else.
    + apply under_copy_attempt.
    + intros e. destruct e; try apply under_raise.
      destruct (Nat.eqb attempt 0); [|apply under_raise].
      apply under_bind; [now apply under_call, P_loop|]. intros _.
      apply under_bind; [now apply under_call, P_loop|]. intros _. exact IH.
    + intros _. apply under_ret.
Qed.

End FileProperties.

Section FileTheorems.
Context {W : Type} {env : Env W} {V : Type} {pv : PyValue V}.

#[local] Abbreviation task := (CopyToTable.t W V).

(** X7.  The retry loop never writes to the temporary file and never
    rewinds it: whatever the driver and the hooks do, the content is the
    same after the loop and the read position has not moved back; the loop
    makes no call but those of the copy attempts, the reset and the table
    creation. *)
Theorem copy_loop_keeps_file (self : task) (c : Conn) (attempts : list nat)
    (s : state W) :
  let s' := snd (CopyToTable.copy_loop self c attempts s) in
  tmp_file s' = tmp_file s /\
  tmp_pos s <= tmp_pos s' /\
  exists l, log s' = log s ++ l /\
            Forall (fun ev => is_loop_event ev = true) l.
Proof.
  pose (I := fun s0 : state W =>
               tmp_file s0 = tmp_file s /\ tmp_pos s <= tmp_pos s0).
  assert (HI : file_invariant I).
  { intros a b [Hf Hp] Hf' Hp'. split; [congruence | lia]. }
  destruct (@under_copy_loop W env V I
              (fun ev => is_loop_event ev = true) HI
              ltac:(intros; reflexivity) ltac:(intros; assumption)
              self c attempts s) as ([Hf Hp] & l & L & F).
  { split; [reflexivity | lia]. }
  cbn zeta. split; [exact Hf|]. split; [exact Hp|]. now exists l.
Qed.

(** X8.  What the retry copies is what the first attempt left unread.  A
    COPY in which the driver reads all that is left puts the file at its
    end, and from a file at its end every COPY of the loop, the retried one
    included, is handed an empty buffer. *)
Theorem copy_after_end_copies_nothing (self : task) (c : Conn) :
  (forall sql (s : state W) r n w,
     drv_copy c sql (skipn (tmp_pos s) (tmp_file s)) (world s) = (r, n, w) ->
     List.length (skipn (tmp_pos s) (tmp_file s)) <= n ->
     at_end (snd (cursor_copy c sql s))) /\
  (forall attempts (s : state W),
     at_end s ->
     let s' := snd (CopyToTable.copy_loop self c attempts s) in
     at_end s' /\
     exists l, log s' = log s ++ l /\ Forall copies_nothing l).
Proof.
  split.
  - intros sql s r n w Hd Hn. unfold cursor_copy, at_end. rewrite Hd. cbn.
    rewrite length_skipn in *. lia.
  - intros attempts s Hs.
    assert (HI : file_invariant (@at_end W)).
    { intros a b Ha Hf Hp. unfold at_end in *. rewrite Hf. lia. }
    apply (@under_copy_loop W env V (@at_end W) copies_nothing HI).
    + intros s0 c0 sql H0. cbn. apply skipn_all2. exact H0.
    + intros ev _ Hev. now destruct ev.
    + exact Hs.
Qed.

End FileTheorems.

(** ** The whole of [run] *)

Section RunProperties.
Context {W : Type} {env : Env W} {V : Type} {pv : PyValue V}.

#[local] Abbreviation task := (CopyToTable.t W V).

Lemma count_events_app (p : event -> bool) (l1 l2 : list event) :
  count_events p (l1 ++ l2) = count_events p l1 + count_events p l2.
Proof. unfold count_events. now rewrite filter_app, length_app. Qed.

Lemma count_events_none (p : event -> bool) (l : list event) :
  Forall (fun ev => p ev = false) l -> count_events p l = 0.
Proof.
  unfold count_events. induction 1 as [|ev l Hev _ IH]; [reflexivity|].
  cbn. now rewrite Hev.
Qed.

Lemma within_app {a b c d a' b' c' d' : nat} {l1 l2 : list event} :
  within a b c d l1 -> within a' b' c' d' l2 ->
  within (a + a') (b + b') (c + c') (d + d') (l1 ++ l2).
Proof.
  unfold within. intros (H1 & H2 & H3 & H4) (K1 & K2 & K3 & K4).
  rewrite !count_events_app. lia.
Qed.

Lemma within_quiet {l : list event} :
  Forall (fun ev => is_loop_event ev = false) l -> within 0 0 0 0 l.
Proof.
  intros H. unfold within.
  rewrite !count_events_none; [lia | | | |];
    (eapply Forall_impl; [|exact H]); intros ev Hev; destruct ev;
    try reflexivity; discriminate.
Qed.

Lemma log_call_result {A} {ev : event} {f : W -> Result A * W}
    {s s' : state W} {r : Result A} :
  call ev f s = (r, s') -> log s' = log s ++ [ev].
Proof. intros H. pose proof (log_call ev f s) as L. now rewrite H in L. Qed.

(** The calls of one copy attempt. *)
Lemma attempt_within (self : task) (c : Conn) (s : state W) :
  exists l, log (snd (CopyToTable.copy_attempt self c s)) = log s ++ l /\
            within 1 1 0 0 l.
Proof.
  unfold CopyToTable.copy_attempt. unfold bind at 1.
  destruct (call (EvInitCopy c) (CopyToTable.init_copy self c) s)
    as [[[]|e] s1] eqn:Hi; pose proof (log_call_result Hi) as Li.
  2:{ exists [EvInitCopy c]. split; [exact Li|]. unfold within. cbn. lia. }
  unfold bind at 1. unfold CopyToTable.copy. unfold bind at 1, lift.
  destruct (CopyToTable.column_names self) as [names|e].
  2:{ exists [EvInitCopy c]. split; [exact Li|]. unfold within. cbn. lia. }
  unfold bind at 1.
  destruct (py_join (txt ",") names) as [joined|e].
  2:{ exists [EvInitCopy c]. split; [exact Li|]. unfold within. cbn. lia. }
  destruct (emits_cursor_copy (fun ev => is_copy_call ev = true) c
              (CopyToTable.copy_sql self joined)
              ltac:(intros; reflexivity) s1) as (lc & Lc & Fc).
  assert (Hone : lc = [EvCopy c (CopyToTable.copy_sql self joined)
                         (skipn (tmp_pos s1) (tmp_file s1))]).
  { unfold cursor_copy in Lc.
    destruct (drv_copy c (CopyToTable.copy_sql self joined)
                (skipn (tmp_pos s1) (tmp_file s1)) (world s1)) as [[r n] w].
    cbn in Lc. now apply app_inv_head in Lc. }
  destruct (cursor_copy c (CopyToTable.copy_sql self joined) s1)
    as [[[]|e] s2] eqn:Hc; cbn [snd] in Lc.
  - destruct (call (EvPostCopy c) (CopyToTable.post_copy self c) s2)
      as [rp s3] eqn:Hp. pose proof (log_call_result Hp) as Lp.
    exists (EvInitCopy c :: lc ++ [EvPostCopy c]). split.
    + cbn [snd]. rewrite Lp, Lc, Li. now rewrite <- !app_assoc.
    + subst lc. unfold within. cbn. lia.
  - exists (EvInitCopy c :: lc). split.
    + cbn [snd]. rewrite Lc, Li. now rewrite <- !app_assoc.
    + subst lc. unfold within. cbn. lia.
Qed.

(** The calls of the loop of two attempts. *)
Lemma loop_within (self : task) (c : Conn) (s : state W) :
  exists l,
    log (snd (CopyToTable.copy_loop self c (seq 0 2) s)) = log s ++ l /\
    within 2 2 1 1 l.
Proof.
  cbn [seq CopyToTable.copy_loop]. unfold try_except_else at 1.
  destruct (attempt_within self c s) as (l1 & L1 & B1).
  destruct (CopyToTable.copy_attempt self c s) as [[[]|e] s1]; cbn [snd] in L1.
  - exists l1. split; [exact L1|].
    unfold within in *. lia.
  - assert (Hstop : exists l, log s1 = log s ++ l /\ within 2 2 1 1 l).
    { exists l1. split; [exact L1|]. unfold within in *. lia. }
    destruct e; try exact Hstop. clear Hstop. cbn [Nat.eqb].
    unfold bind at 1.
    destruct (reset_connection c s1) as [[[]|e] s2] eqn:Hr;
      pose proof (log_call_result Hr) as Lr.
    2:{ exists (l1 ++ [EvReset c]). split.
        - cbn [snd]. rewrite Lr, L1. now rewrite <- app_assoc.
        - apply (@within_app 1 1 0 0 1 1 1 1); [exact B1|].
          unfold within. cbn. lia. }
    unfold bind at 1.
    destruct (call (EvCreateTable c) (CopyToTable.create_table self c) s2)
      as [[[]|e] s3] eqn:Ht; pose proof (log_call_result Ht) as Lt.
    2:{ exists (l1 ++ [EvReset c; EvCreateTable c]). split.
        - cbn [snd]. rewrite Lt, Lr, L1. now rewrite <- !app_assoc.
        - apply (@within_app 1 1 0 0 1 1 1 1); [exact B1|].
          unfold within. cbn. lia. }
    unfold try_except_else.
    destruct (attempt_within self c s3) as (l2 & L2 & B2).
    assert (Hend : exists l, log (snd (CopyToTable.copy_attempt self c s3))
                             = log s ++ l /\ within 2 2 1 1 l).
    { exists (l1 ++ [EvReset c; EvCreateTable c] ++ l2). split.
      - rewrite L2, Lt, Lr, L1. now rewrite <- !app_assoc.
      - apply (@within_app 1 1 0 0 1 1 1 1); [exact B1|].
        apply (@within_app 0 0 1 1 1 1 0 0); [|exact B2].
        unfold within. cbn. lia. }
    destruct (CopyToTable.copy_attempt self c s3) as [[[]|e] s4];
      cbn [snd] in *; [exact Hend|].
    destruct e; exact Hend.
Qed.

Lemma emits_with_connection {A} (P : event -> Prop) (mk : M W Conn)
    (body : Conn -> M W A) :
  emits P mk -> (forall c, emits P (body c)) -> (forall c b, P (EvExit c b)) ->
  emits P (with_connection mk body).
Proof.
  intros Hmk Hbody Hexit. unfold with_connection.
  apply emits_bind; [exact Hmk|]. intros c s.
  destruct (Hbody c s) as (l & L & F).
  destruct (body c s) as [r s1]. cbn in L.
  exists (l ++ [EvExit c (is_raise r)]). cbn. rewrite L, <- app_assoc.
  split; [reflexivity|]. apply Forall_app. split; [exact F|].
  constructor; [apply Hexit | constructor].
Qed.

Lemma emits_exists (self : VerticaTarget.t) (connection : option Conn) :
  emits (fun ev => is_target_call ev = true)
    (VerticaTarget.exists_ self connection).
Proof.
  unfold VerticaTarget.exists_.
  apply emits_bind.
  { destruct connection; [apply emits_ret | now apply emits_call]. }
  intros c. apply emits_bind; [|intros; apply emits_ret].
  apply emits_try_except_else.
  - apply emits_bind; [now apply emits_call|]. intros _. now apply emits_call.
  - intros e. destruct e; first [apply emits_ret | apply emits_raise].
  - intros a. apply emits_ret.
Qed.

Lemma emits_touch (self : VerticaTarget.t) (connection : option Conn) :
  emits (fun ev => is_target_call ev = true)
    (VerticaTarget.touch self connection).
Proof.
  unfold VerticaTarget.touch.
  apply emits_bind.
  { unfold VerticaTarget.create_marker_table.
    apply emits_with_connection; [now apply emits_call | | reflexivity].
    intros c. apply emits_try_except_else.
    - now apply emits_call.
    - intros e. destruct e; first [apply emits_ret | apply emits_raise].
    - intros a. apply emits_ret. }
  intros _. apply emits_bind.
  { destruct connection; [apply emits_ret | now apply emits_call]. }
  intros c. apply emits_bind.
  { destruct (VerticaTarget.use_db_timestamps self);
      [now apply emits_call|].
    apply emits_bind; [|intros; now apply emits_call].
    intros s. exists []. cbn. now rewrite app_nil_r. }
  intros _. apply emits_bind; [now apply emits_call|].
  intros _. apply emits_bind; [apply emits_exists|].
  intros [|]; [apply emits_ret | apply emits_raise].
Qed.

Lemma target_call_quiet (ev : event) :
  is_target_call ev = true -> is_loop_event ev = false.
Proof. now destruct ev. Qed.

Lemma emits_staged_quiet (self : task) (target : VerticaTarget.t) :
  emits (fun ev => is_loop_event ev = false) (CopyToTable.staged self target).
Proof.
  unfold CopyToTable.staged.
  apply emits_bind; [now apply emits_call|]. intros c.
  apply emits_bind.
  { induction (CopyToTable.rows self) as [|row rs IH];
      cbn [CopyToTable.write_rows]; [apply emits_ret|].
    apply emits_bind; [apply emits_lift|]. intros data.
    apply emits_bind; [now apply emits_tmp_write|]. intros _. exact IH. }
  intros _. apply emits_bind; [apply emits_tmp_seek|]. intros _.
  apply emits_ret.
Qed.

(** [run] when it stops before the retry loop is entered. *)
Lemma run_staged_raises {self : task} {target : VerticaTarget.t}
    {s s1 : state W} {e : exn} :
  CopyToTable.truthy (CopyToTable.table self) = true ->
  CopyToTable.truthy (CopyToTable.columns self) = true ->
  CopyToTable.output self = Ok target ->
  CopyToTable.staged self target (set_tmp [] 0 s) = (Raise e, s1) ->
  fst (CopyToTable.run self s) = Raise e /\
  (log (snd (CopyToTable.run self s)) = log s1 \/
   exists c, log (snd (CopyToTable.run self s)) = log s1 ++ [EvExit c true]).
Proof.
  intros Ht Hcols Hout Hst. unfold CopyToTable.run. rewrite Ht, Hcols.
  cbn [andb negb].
  unfold with_tempfile, with_connection, CopyToTable.staged, bind, lift, ret,
    tmp_seek in *.
  rewrite Hout.
  destruct (VerticaTarget.connect target (set_tmp [] 0 s)) as [[c0|e0] s0].
  - destruct (CopyToTable.write_rows self (CopyToTable.rows self) s0)
      as [[[]|e1] s0']; [discriminate|].
    injection Hst as <- <-. cbn. split; [reflexivity|]. right. now exists c0.
  - injection Hst as <- <-. cbn. split; [reflexivity | now left].
Qed.

Lemma run_falsy (self : task) (s : state W) :
  CopyToTable.truthy (CopyToTable.table self)
  && CopyToTable.truthy (CopyToTable.columns self) = false ->
  CopyToTable.run self s
  = (Raise (Exception_ "table and columns need to be specified"), s).
Proof. intros H. unfold CopyToTable.run. now rewrite H. Qed.

Lemma run_output_raises {self : task} {s : state W} {e : exn} :
  CopyToTable.truthy (CopyToTable.table self) = true ->
  CopyToTable.truthy (CopyToTable.columns self) = true ->
  CopyToTable.output self = Raise e ->
  CopyToTable.run self s = (Raise e, set_tmp [] 0 s).
Proof.
  intros Ht Hcols Hout. unfold CopyToTable.run. rewrite Ht, Hcols.
  cbn [andb negb]. unfold with_tempfile, bind, lift. now rewrite Hout.
Qed.

(** X9.  Whatever the driver and the hooks do, a load sends at most two
    COPY statements, calls [init_copy] at most twice, resets the connection
    at most once and calls [create_table] at most once. *)
Theorem run_bounded_retry (self : task) (s : state W) :
  exists l,
    log (snd (CopyToTable.run self s)) = log s ++ l /\
    count_events is_copy_call l <= 2 /\
    count_events is_init_call l <= 2 /\
    count_events is_reset_call l <= 1 /\
    count_events is_create_call l <= 1.
Proof.
  assert (Hnone : exists l, log s = log s ++ l /\ within 2 2 1 1 l).
  { exists []. rewrite app_nil_r. split; [reflexivity|].
    unfold within. cbn. lia. }
  change (exists l, log (snd (CopyToTable.run self s)) = log s ++ l /\
                    within 2 2 1 1 l).
  destruct (CopyToTable.truthy (CopyToTable.table self)) eqn:Ht.
  2:{ now rewrite run_falsy by (now rewrite Ht). }
  destruct (CopyToTable.truthy (CopyToTable.columns self)) eqn:Hcols.
  2:{ now rewrite run_falsy by (now rewrite Ht, Hcols). }
  destruct (CopyToTable.output self) as [target|e] eqn:Hout.
  2:{ now rewrite (run_output_raises Ht Hcols Hout). }
  destruct (CopyToTable.staged self target (set_tmp [] 0 s))
    as [[c|e] s1] eqn:Hst;
    destruct (emits_run (emits_staged_quiet self target) Hst)
      as (l0 & L0 & F0); cbn [log set_tmp] in L0;
    pose proof (within_quiet F0) as B0.
  - rewrite (run_staged Ht Hcols Hout Hst). unfold bind.
    destruct (loop_within self c s1) as (l1 & L1 & B1).
    destruct (CopyToTable.copy_loop self c (seq 0 2) s1) as [[[]|e] s2];
      cbn [snd] in L1.
    + destruct (VerticaTarget.touch target (Some c) s2) as [r s3] eqn:Htouch.
      destruct (emits_run (emits_touch target (Some c)) Htouch)
        as (l2 & L2 & F2).
      exists (l0 ++ l1 ++ l2 ++ [EvExit c (is_raise r)]). split.
      * cbn [snd]. rewrite log_leave, L2, L1, L0.
        now rewrite <- !app_assoc.
      * apply (@within_app 0 0 0 0 2 2 1 1); [exact B0|].
        apply (@within_app 2 2 1 1 0 0 0 0); [exact B1|].
        apply within_quiet. apply Forall_app. split.
        -- eapply Forall_impl; [|exact F2]. apply target_call_quiet.
        -- now repeat constructor.
    + exists (l0 ++ l1 ++ [EvExit c true]). split.
      * cbn [snd]. rewrite log_leave, L1, L0. cbn [is_raise].
        now rewrite <- !app_assoc.
      * apply (@within_app 0 0 0 0 2 2 1 1); [exact B0|].
        apply (@within_app 2 2 1 1 0 0 0 0); [exact B1|].
        apply within_quiet. now repeat constructor.
  - destruct (run_staged_raises Ht Hcols Hout Hst) as (_ & [L | (c & L)]).
    + exists l0. split; [now rewrite L, L0|].
      apply (@within_app 0 0 0 0 2 2 1 1 l0 []) in B0.
      * now rewrite app_nil_r in B0.
      * unfold within. cbn. lia.
    + exists (l0 ++ [EvExit c true]). split.
      * rewrite L, L0. now rewrite <- app_assoc.
      * apply (@within_app 0 0 0 0 2 2 1 1); [exact B0|].
        unfold within. cbn. lia.
Qed.

Lemma run_success_records_marker_core (self : task) (s s' : state W) :
  CopyToTable.run self s = (Ok tt, s') ->
  exists target c l now,
    CopyToTable.output self = Ok target /\
    log s' = log s ++ EvConnect (VerticaTarget.params target) :: l
             ++ [EvExecute c (VerticaTarget.insert_sql target)
                   (VerticaTarget.marker_row target now);
                 EvCommit c;
                 EvExecute c (VerticaTarget.select_sql target)
                   [(txt "uid", PStr (VerticaTarget.update_id target))];
                 EvFetchone c; EvExit c false] /\
    tmp_file s' = [] /\ tmp_pos s' = 0.
Proof.
  intros H.
  destruct (CopyToTable.truthy (CopyToTable.table self)) eqn:Ht.
  2:{ rewrite run_falsy in H by (now rewrite Ht). discriminate. }
  destruct (CopyToTable.truthy (CopyToTable.columns self)) eqn:Hcols.
  2:{ rewrite run_falsy in H by (now rewrite Ht, Hcols). discriminate. }
  destruct (CopyToTable.output self) as [target|e] eqn:Hout.
  2:{ rewrite (run_output_raises Ht Hcols Hout) in H. discriminate. }
  destruct (CopyToTable.staged self target (set_tmp [] 0 s))
    as [[c|e] s1] eqn:Hst.
  2:{ destruct (run_staged_raises Ht Hcols Hout Hst) as (Hr & _).
      rewrite H in Hr. discriminate. }
  rewrite (run_staged Ht Hcols Hout Hst) in H. unfold bind in H.
  destruct (CopyToTable.copy_loop self c (seq 0 2) s1) as [[[]|e] s2] eqn:Hl;
    [|discriminate].
  destruct (VerticaTarget.touch target (Some c) s2) as [[[]|e] s3] eqn:Htouch;
    [|discriminate].
  injection H as <-.
  destruct (staged_inv Hst) as (s0 & Hc & ->).
  destruct (emits_run (emits_copy_loop self c (seq 0 2)) Hl) as (ll & Ll & _).
  destruct (touch_log target c s2 Htouch) as (lt & now & Lt).
  exists target, c,
    (map (fun row => EvWrite (utf8 (CopyToTable.rowstr self row)))
       (CopyToTable.rows self) ++ ll ++ lt), now.
  split; [reflexivity|]. split; [|split; reflexivity].
  rewrite log_leave, Lt, Ll. cbn [CopyToTable.after_staging log is_raise].
  rewrite (log_connect Hc). cbn [set_tmp log].
  rewrite <- !app_assoc. reflexivity.
Qed.

(** X10.  A [run] that returns has recorded the marker of its load: its log
    starts with the connection and ends with the statement
    [INSERT INTO <marker table> (update_id, target_table) VALUES (:uid, :table)]
    carrying the load's [update_id] and table, the commit, the read-back of
    the marker and the exit, all on that connection; the temporary file is
    gone. *)
Theorem run_success_records_marker (self : task) (s s' : state W) :
  CopyToTable.run self s = (Ok tt, s') ->
  exists target c l now,
    CopyToTable.output self = Ok target /\
    log s' = log s ++ EvConnect (VerticaTarget.params target) :: l
             ++ [EvExecute c (VerticaTarget.insert_sql target)
                   (VerticaTarget.marker_row target now);
                 EvCommit c;
                 EvExecute c (VerticaTarget.select_sql target)
                   [(txt "uid", PStr (VerticaTarget.update_id target))];
                 EvFetchone c; EvExit c false] /\
    tmp_file s' = [] /\ tmp_pos s' = 0 /\
  VerticaTarget.insert_sql target
  = txt "INSERT INTO " ++ VerticaTarget.marker_table target
    ++ (if VerticaTarget.use_db_timestamps target
        then txt " (update_id, target_table) VALUES (:uid, :table)"
        else txt " (update_id, target_table, inserted) VALUES (:uid, :table, :time)") /\
  (forall clock,
     VerticaTarget.marker_row target clock
     = (txt "uid", PStr (VerticaTarget.update_id target))
         :: (txt "table", PStr (VerticaTarget.table target))
         :: (if VerticaTarget.use_db_timestamps target then []
             else [(txt "time", PTime clock)])) /\
  VerticaTarget.select_sql target
  = txt "SELECT 1 FROM " ++ VerticaTarget.marker_table target
    ++ txt " WHERE update_id = :uid LIMIT 1".
Proof.
  intros H.
  destruct (@run_success_records_marker_core self s s' H)
    as (target & c & l & now & Hout & L & Hf & Hp).
  exists target, c, l, now.
  split; [exact Hout|]. split; [exact L|]. split; [exact Hf|].
  split; [exact Hp|].
  unfold VerticaTarget.insert_sql, VerticaTarget.marker_row,
    VerticaTarget.select_sql.
  now destruct (VerticaTarget.use_db_timestamps target).
Qed.

Lemma init_rejects_separators
    (host database user password table update_id : text) (port : port_val) :
  2 <= separators host ->
  VerticaTarget.init (env := env) host database user password table
    update_id port = Raise ValueError.
Proof.
  unfold separators, VerticaTarget.init. intros H.
  pose proof (split_count colon host) as Hlen.
  destruct (contains colon host) eqn:Hc.
  - destruct (split colon host) as [|h [|p [|q l]]]; cbn in Hlen;
      first [lia | reflexivity].
  - apply contains_count in Hc. lia.
Qed.

(** X11.  A load that cannot reach its database stages nothing.  With a
    host string of two or more [':'] [run] raises [ValueError] without a
    single call; when the connection is refused [run] raises the error of
    the driver, and the attempt to connect is the only call made. *)
Theorem run_fails_before_staging (self : task) (s : state W) :
  CopyToTable.truthy (CopyToTable.table self) = true ->
  CopyToTable.truthy (CopyToTable.columns self) = true ->
  (2 <= separators (CopyToTable.host self) ->
   CopyToTable.run self s = (Raise ValueError, set_tmp [] 0 s)) /\
  (forall target e s1,
     CopyToTable.output self = Ok target ->
     VerticaTarget.connect target (set_tmp [] 0 s) = (Raise e, s1) ->
     CopyToTable.run self s = (Raise e, set_tmp [] 0 s1) /\
     log s1 = log s ++ [EvConnect (VerticaTarget.params target)]).
Proof.
  intros Ht Hcols. split.
  - intros Hsep. apply (run_output_raises Ht Hcols).
    unfold CopyToTable.output. now apply init_rejects_separators.
  - intros target e s1 Hout Hc. split; [|exact (log_connect Hc)].
    unfold CopyToTable.run. rewrite Ht, Hcols. cbn [andb negb].
    unfold with_tempfile, with_connection, bind, lift.
    now rewrite Hout, Hc.
Qed.

Lemma write_rows_stops (self : task) (good : list (list V)) (bad : list V)
    (rest : list (list V)) (s : state W) :
  Forall (fun row => forallb is_scalar (CopyToTable.rowstr self row) = true)
    good ->
  forallb is_scalar (CopyToTable.rowstr self bad) = false ->
  exists s',
    CopyToTable.write_rows self (good ++ bad :: rest) s
    = (Raise UnicodeEncodeError, s') /\
    log s' = log s
             ++ map (fun row => EvWrite (utf8 (CopyToTable.rowstr self row)))
                  good.
Proof.
  intros Hgood Hbad. revert s.
  induction Hgood as [|row good Hrow _ IH]; intros s.
  - exists s. cbn [app CopyToTable.write_rows map].
    unfold bind, lift, CopyToTable.encode_utf8, encode. rewrite Hbad.
    now rewrite app_nil_r.
  - cbn [app CopyToTable.write_rows]. unfold bind at 1, lift.
    unfold CopyToTable.encode_utf8, encode. rewrite Hrow.
    unfold bind at 1. cbn [tmp_write].
    match goal with |- context [CopyToTable.write_rows self _ ?s1] =>
      destruct (IH s1) as (s' & E & L) end.
    exists s'. split; [exact E|]. rewrite L. cbn. now rewrite <- app_assoc.
Qed.

(** X12.  A row that does not encode ends the load before any copy.  When
    the line of a row holds a code point that is not a scalar value, [run]
    raises [UnicodeEncodeError]: the rows before it were written, the
    connection is left, and neither a copy attempt nor [touch] was made. *)
Theorem run_unencodable_row (self : task) (target : VerticaTarget.t)
    (c : Conn) (good : list (list V)) (bad : list V)
    (rest : list (list V)) (s s1 : state W) :
  CopyToTable.truthy (CopyToTable.table self) = true ->
  CopyToTable.truthy (CopyToTable.columns self) = true ->
  CopyToTable.output self = Ok target ->
  VerticaTarget.connect target (set_tmp [] 0 s) = (Ok c, s1) ->
  CopyToTable.rows self = good ++ bad :: rest ->
  Forall (fun row => forallb is_scalar (CopyToTable.rowstr self row) = true)
    good ->
  forallb is_scalar (CopyToTable.rowstr self bad) = false ->
  fst (CopyToTable.run self s) = Raise UnicodeEncodeError /\
  log (snd (CopyToTable.run self s))
  = log s ++ [EvConnect (VerticaTarget.params target)]
      ++ map (fun row => EvWrite (utf8 (CopyToTable.rowstr self row))) good
      ++ [EvExit c true].
Proof.
  intros Ht Hcols Hout Hc Hrows Hgood Hbad.
  destruct (write_rows_stops self bad rest s1 Hgood Hbad) as (s2 & Hw & Lw).
  unfold CopyToTable.run. rewrite Ht, Hcols. cbn [andb negb].
  unfold with_tempfile, with_connection, bind, lift.
  rewrite Hout, Hc, Hrows, Hw. cbn. split; [reflexivity|].
  rewrite Lw, (log_connect Hc). cbn [set_tmp log].
  now rewrite <- !app_assoc.
Qed.

Lemma copy_loop_reset_raises {self : task} {c : Conn} {s s1 s2 : state W}
    {e : exn} :
  CopyToTable.copy_attempt self c s = (Raise MissingRelation, s1) ->
  reset_connection c s1 = (Raise e, s2) ->
  CopyToTable.copy_loop self c (seq 0 2) s = (Raise e, s2).
Proof.
  intros H1 H2. cbn [seq CopyToTable.copy_loop]. unfold try_except_else.
  rewrite H1. cbn [Nat.eqb]. unfold bind at 1. now rewrite H2.
Qed.

Lemma copy_loop_create_raises {self : task} {c : Conn}
    {s s1 s2 s3 : state W} {e : exn} :
  CopyToTable.copy_attempt self c s = (Raise MissingRelation, s1) ->
  reset_connection c s1 = (Ok tt, s2) ->
  CopyToTable.call_create_table self c s2 = (Raise e, s3) ->
  CopyToTable.copy_loop self c (seq 0 2) s = (Raise e, s3).
Proof.
  intros H1 H2 H3. cbn [seq CopyToTable.copy_loop]. unfold try_except_else.
  rewrite H1. cbn [Nat.eqb]. unfold bind at 1. rewrite H2.
  unfold bind at 1. unfold CopyToTable.call_create_table in H3.
  now rewrite H3.
Qed.

(** X13.  A failed recovery ends the load.  After a first attempt that
    ends in a missing-relation error, an error of the reset, or of
    [create_table], whatever it is, leaves [run] at once: no second attempt
    is made and no marker is recorded. *)
Theorem run_recovery_failure (self : task) (target : VerticaTarget.t)
    (c : Conn) (s s1 s2 : state W) (e : exn) :
  CopyToTable.truthy (CopyToTable.table self) = true ->
  CopyToTable.truthy (CopyToTable.columns self) = true ->
  CopyToTable.output self = Ok target ->
  CopyToTable.staged self target (set_tmp [] 0 s) = (Ok c, s1) ->
  CopyToTable.copy_attempt self c s1 = (Raise MissingRelation, s2) ->
  (forall s3,
     reset_connection c s2 = (Raise e, s3) ->
     CopyToTable.run self s
     = (Raise e, CopyToTable.leave c (@Raise unit e) s3) /\
     log (CopyToTable.leave c (@Raise unit e) s3)
     = log s2 ++ [EvReset c; EvExit c true]) /\
  (forall s3 s4,
     reset_connection c s2 = (Ok tt, s3) ->
     CopyToTable.call_create_table self c s3 = (Raise e, s4) ->
     CopyToTable.run self s
     = (Raise e, CopyToTable.leave c (@Raise unit e) s4) /\
     log (CopyToTable.leave c (@Raise unit e) s4)
     = log s2 ++ [EvReset c; EvCreateTable c; EvExit c true]).
Proof.
  intros Ht Hcols Hout Hst H1. split.
  - intros s3 H2. split.
    + rewrite (run_staged Ht Hcols Hout Hst). unfold bind.
      now rewrite (copy_loop_reset_raises H1 H2).
    + rewrite log_leave. unfold reset_connection in H2.
      rewrite (log_call_result H2). cbn [is_raise].
      now rewrite <- app_assoc.
  - intros s3 s4 H2 H3. split.
    + rewrite (run_staged Ht Hcols Hout Hst). unfold bind.
      now rewrite (copy_loop_create_raises H1 H2 H3).
    + rewrite log_leave, (log_reset_create H2 H3). cbn [is_raise].
      now rewrite <- app_assoc.
Qed.

Lemma join_names (sep : text) (names : list text) :
  py_join sep (map OStr names) = Ok (join sep names).
Proof.
  unfold py_join.
  assert (H : map_result (fun o => match o with
                                   | OStr s0 => Ok s0
                                   | _ => Raise TypeError
                                   end) (map OStr names) = Ok names).
  { induction names as [|n names IH]; [reflexivity|].
    cbn. cbn in IH. now rewrite IH. }
  now rewrite H.
Qed.

Lemma pair_names (cols : list (text * text)) :
  map_result item0 (pair_columns cols) = Ok (map OStr (map fst cols)).
Proof.
  induction cols as [|[n t] cols IH]; [reflexivity|].
  cbn. unfold pair_columns in IH. now rewrite IH.
Qed.

(** X14.  Both accepted shapes of [columns] give the same statement.  For
    a list of names, and for a list of (name, type) pairs with these names,
    [copy] sends [COPY table (name,...,name) FROM STDIN DELIMITER 'sep' ]
    with the names in their order, joined by commas; the types play no
    part. *)
Theorem copy_names_either_shape (self : task) (c : Conn) (s : state W) :
  (forall names,
     names <> [] -> CopyToTable.columns self = flat_columns names ->
     CopyToTable.copy self c s
     = cursor_copy c
         (txt "COPY " ++ CopyToTable.table self ++ txt " ("
          ++ join (txt ",") names ++ txt ") FROM STDIN DELIMITER '"
          ++ CopyToTable.column_separator self ++ txt "' ") s) /\
  (forall cols,
     cols <> [] -> CopyToTable.columns self = pair_columns cols ->
     CopyToTable.copy self c s
     = cursor_copy c
         (txt "COPY " ++ CopyToTable.table self ++ txt " ("
          ++ join (txt ",") (map fst cols) ++ txt ") FROM STDIN DELIMITER '"
          ++ CopyToTable.column_separator self ++ txt "' ") s).
Proof.
  split.
  - intros names Hne Hcols.
    unfold CopyToTable.copy, CopyToTable.column_names. rewrite Hcols.
    destruct names as [|n names]; [now elim Hne|].
    cbn [flat_columns map is_str].
    change (OStr n :: map OStr names) with (map OStr (n :: names)).
    unfold bind, lift. now rewrite join_names.
  - intros cols Hne Hcols.
    unfold CopyToTable.copy, CopyToTable.column_names. rewrite Hcols.
    destruct cols as [|[n t] cols]; [now elim Hne|].
    cbn [pair_columns map is_str py_len List.length Nat.eqb fst snd].
    change (OSeq [OStr n; OStr t]
              :: map (fun nt => OSeq [OStr (fst nt); OStr (snd nt)]) cols)
      with (pair_columns ((n, t) :: cols)).
    rewrite pair_names. unfold bind, lift. now rewrite join_names.
Qed.

End RunProperties.

(** ** The default row source *)

Section RowsProperties.
Context {W : Type} {env : Env W} {V : Type} {pv : PyValue V}.

#[local] Abbreviation task := (CopyToTable.t W V).

Lemma rstrip_clean (c : N) (s : text) :
  contains c s = false -> Rows.rstrip c s = s.
Proof.
  induction s as [|x s IH]; [reflexivity|].
  cbn [contains existsb]. fold (contains c s). intros H.
  apply orb_false_elim in H as [Hx Hs]. cbn [Rows.rstrip].
  rewrite (IH Hs). rewrite N.eqb_sym, Hx. now destruct s.
Qed.

Lemma rstrip_snoc (c : N) (s : text) :
  Rows.rstrip c (s ++ [c]) = Rows.rstrip c s.
Proof.
  induction s as [|x s IH]; cbn [app Rows.rstrip].
  - now rewrite N.eqb_refl.
  - now rewrite IH.
Qed.

Lemma strip_line (c : N) (body : text) :
  contains c body = false ->
  Rows.strip c (body ++ [c]) = body /\ Rows.strip c body = body.
Proof.
  intros H. unfold Rows.strip. destruct body as [|x b].
  - cbn. now rewrite N.eqb_refl.
  - pose proof H as H'. cbn [contains existsb] in H'.
    apply orb_false_elim in H' as [Hx _]. rewrite N.eqb_sym in Hx.
    cbn [app Rows.lstrip]. rewrite Hx.
    change (x :: b ++ [c]) with ((x :: b) ++ [c]).
    rewrite rstrip_snoc. now rewrite (rstrip_clean _ _ H).
Qed.

Lemma map_column_of_str (self : task) (of_str : text -> V) :
  (forall t, text_type (of_str t) = t) ->
  (forall t, t <> [] ->
     existsb (fun x => py_eq x (of_str t)) (CopyToTable.null_values self)
     = false) ->
  forall t, CopyToTable.map_column self (of_str t) = t.
Proof.
  intros Htext Hnull t. unfold CopyToTable.map_column.
  destruct t as [|x t].
  - rewrite Htext. now destruct (existsb _ _).
  - rewrite Hnull by discriminate. apply Htext.
Qed.

Lemma rowstr_of_fields (self : task) (of_str : text -> V) (body : text) :
  CopyToTable.column_separator self = [Rows.tab] ->
  (forall t, text_type (of_str t) = t) ->
  (forall t, t <> [] ->
     existsb (fun x => py_eq x (of_str t)) (CopyToTable.null_values self)
     = false) ->
  CopyToTable.rowstr self (map of_str (split Rows.tab body))
  = body ++ [newline].
Proof.
  intros Hsep Htext Hnull. unfold CopyToTable.rowstr. rewrite Hsep.
  rewrite map_map.
  rewrite (map_ext _ (fun t => t) (map_column_of_str self of_str Htext Hnull)).
  now rewrite map_id, join_split.
Qed.

(** X15.  Reading lines with the default [rows] and staging them gives the
    lines back.  With a tab as separator, when no field but the empty one
    is a null value, the staged line of an input line is that line, its
    newline put back if it was the last line and had none; so a file of
    newline-terminated lines is staged as it is.  Each row has one field
    more than its line has tabs, and no field holds a tab. *)
Theorem default_rows_reproduce_lines (self : task) (of_str : text -> V) :
  CopyToTable.column_separator self = [Rows.tab] ->
  (forall t, text_type (of_str t) = t) ->
  (forall t, t <> [] ->
     existsb (fun x => py_eq x (of_str t)) (CopyToTable.null_values self)
     = false) ->
  (forall body,
     contains newline body = false ->
     map (CopyToTable.rowstr self) (Rows.rows of_str [body ++ [newline]])
     = [body ++ [newline]] /\
     map (CopyToTable.rowstr self) (Rows.rows of_str [body])
     = [body ++ [newline]] /\
     map (@List.length V) (Rows.rows of_str [body ++ [newline]])
     = [S (count_occ N.eq_dec body Rows.tab)] /\
     Forall (fun field => contains Rows.tab field = false)
       (split Rows.tab (Rows.strip newline (body ++ [newline])))) /\
  (forall bodies,
     Forall (fun body => contains newline body = false) bodies ->
     let lines := map (fun body => body ++ [newline]) bodies in
     map (CopyToTable.rowstr self) (Rows.rows of_str lines) = lines /\
     CopyToTable.staged_buffer self (Rows.rows of_str lines)
     = List.concat (map utf8 lines)).
Proof.
  intros Hsep Htext Hnull.
  assert (Hline : forall body, contains newline body = false ->
            CopyToTable.rowstr self
              (map of_str (split Rows.tab (Rows.strip newline
                                             (body ++ [newline]))))
            = body ++ [newline]).
  { intros body Hb. rewrite (proj1 (strip_line _ _ Hb)).
    now apply rowstr_of_fields. }
  split.
  - intros body Hb. unfold Rows.rows. cbn [map].
    rewrite (Hline body Hb).
    destruct (strip_line _ _ Hb) as [S1 S2]. rewrite S1, S2.
    rewrite (rowstr_of_fields self of_str body Hsep Htext Hnull).
    rewrite length_map, split_count.
    repeat split. apply split_pieces_clean.
  - intros bodies Hbodies lines.
    assert (Hmap : map (CopyToTable.rowstr self) (Rows.rows of_str lines)
                   = lines).
    { subst lines. unfold Rows.rows. rewrite !map_map.
      apply map_ext_in. intros body Hin.
      rewrite Forall_forall in Hbodies. now apply Hline, Hbodies. }
    split; [exact Hmap|].
    unfold CopyToTable.staged_buffer.
    change (fun row => utf8 (join (CopyToTable.column_separator self)
                               (map (CopyToTable.map_column self) row)
                             ++ [newline]))
      with (fun row => utf8 (CopyToTable.rowstr self row)).
    rewrite <- (map_map (CopyToTable.rowstr self) utf8). now rewrite Hmap.
Qed.

End RowsProperties.

(** ** The further properties on concrete runs *)

Section FurtherRuns.

Import Script Scenario.

Ltac run_it := vm_compute; reflexivity.

Lemma init_succeeds_iff_one_separator_witness :
  exists target p,
    VerticaTarget.init (env := env) (txt "localhost:5433") (txt "vertica")
      (txt "dbadmin") [] (txt "test_table") (txt "TestVerticaTask()")
      PortNone = Ok target /\
    VerticaTarget.port target = PortStr p /\
    VerticaTarget.host target ++ colon :: p = txt "localhost:5433".
Proof.
  destruct (proj2 (proj1 (@init_succeeds_iff_one_separator sim env
                            (txt "localhost:5433") (txt "vertica")
                            (txt "dbadmin") [] (txt "test_table")
                            (txt "TestVerticaTask()") PortNone))
              ltac:(vm_compute; lia)) as (t & Ht).
  destruct (proj2 (@init_succeeds_iff_one_separator sim env
                     (txt "localhost:5433") (txt "vertica")
                     (txt "dbadmin") [] (txt "test_table")
                     (txt "TestVerticaTask()") PortNone) t Ht)
    as (_ & Hone & _).
  destruct (Hone ltac:(run_it)) as (p & Hp & Hh).
  now exists t, p.
Defined.

Lemma touch_stops_at_first_failure_witness :
  VerticaTarget.touch target (Some 0) (start marker_breaks)
  = (Raise (DatabaseError 1), marker_broken).
Proof.
  apply (proj1 (@touch_stops_at_first_failure sim env target (Some 0)
                  (start marker_breaks) (DatabaseError 1))).
  run_it.
Defined.

Lemma create_marker_table_always_exits_witness :
  exists c,
    log marker_left
    = log (start marker_exists)
      ++ [EvConnect (VerticaTarget.params target);
          EvExecute c (VerticaTarget.create_sql target) [];
          EvExit c false].
Proof.
  destruct (@create_marker_table_always_exits sim env target
              (start marker_exists) marker_left (Ok tt) ltac:(run_it))
    as [(e & _ & He & _) | (c & _ & L)]; [discriminate|].
  now exists c.
Defined.

Lemma query_failure_propagates_witness :
  VerticaQuery.run query_task (start query_breaks)
  = (Raise MissingRelation, closed 0 (@Raise unit MissingRelation) query_failed).
Proof.
  refine (proj1 (@query_failure_propagates sim env query_task target 0
                   (start query_breaks) query_connected query_failed
                   MissingRelation _ _ _)); run_it.
Defined.

Lemma query_success_touches_witness :
  VerticaQuery.run query_task (start [])
  = (Ok tt, closed 0 (Ok tt) query_touched).
Proof.
  refine (proj1 (@query_success_touches sim env query_task target 0
                   (start []) query_opened query_done query_touched (Ok tt)
                   _ _ _ _)); run_it.
Defined.

Lemma copy_after_end_copies_nothing_witness :
  exists l,
    log (snd (CopyToTable.copy_loop post_load 0 (seq 1 1) post_created))
    = log post_created ++ l /\ Forall copies_nothing l.
Proof.
  exact (proj2 (proj2 (@copy_after_end_copies_nothing sim env value
                         post_load 0)
                  (seq 1 1) post_created
                  ltac:(unfold at_end; vm_compute; lia))).
Defined.

Lemma run_success_records_marker_witness :
  exists tgt c l now,
    CopyToTable.output load = Ok tgt /\
    log load_done
    = log (start []) ++ EvConnect (VerticaTarget.params tgt) :: l
      ++ [EvExecute c (VerticaTarget.insert_sql tgt)
            (VerticaTarget.marker_row tgt now);
          EvCommit c;
          EvExecute c (VerticaTarget.select_sql tgt)
            [(txt "uid", PStr (VerticaTarget.update_id tgt))];
          EvFetchone c; EvExit c false] /\
    tmp_file load_done = [] /\ tmp_pos load_done = 0.
Proof.
  destruct (@run_success_records_marker sim env value py_value load
              (start []) load_done ltac:(run_it))
    as (tgt & c & l & now & Hout & L & Hf & Hp & _).
  now exists tgt, c, l, now.
Defined.

Lemma run_fails_before_staging_witness :
  CopyToTable.run load (start refusal)
  = (Raise (DatabaseError 7), set_tmp [] 0 refused).
Proof.
  refine (proj1 (proj2 (@run_fails_before_staging sim env value py_value load
                          (start refusal) _ _)
                   target (DatabaseError 7) refused _ _)); run_it.
Defined.

Lemma run_unencodable_row_witness :
  fst (CopyToTable.run surrogate_load (start [])) = Raise UnicodeEncodeError.
Proof.
  refine (proj1 (@run_unencodable_row sim env value py_value surrogate_load
                   target 0 [[VStr (txt "foo"); VInt 123]] surrogate_row
                   [[VNone; VInt 0]] (start []) surrogate_connected
                   _ _ _ _ _ _ _)); try run_it.
  repeat constructor.
Defined.

Lemma run_recovery_failure_witness :
  CopyToTable.run load (start creation_breaks)
  = (Raise (DatabaseError 2),
     CopyToTable.leave 0 (@Raise unit (DatabaseError 2)) creation_failed).
Proof.
  refine (proj1 (proj2 (@run_recovery_failure sim env value py_value load
                          target 0 (start creation_breaks) creation_staged
                          creation_first (DatabaseError 2) _ _ _ _ _)
                   creation_reset creation_failed _ _)); run_it.
Defined.

Lemma copy_names_either_shape_witness :
  CopyToTable.copy load 0 (start [])
  = cursor_copy 0
      (CopyToTable.copy_sql load
         (join (txt ",") [txt "test_text"; txt "test_int"])) (start []).
Proof.
  apply (proj2 (@copy_names_either_shape sim env value load 0
                  (start [])) name_type_columns).
  - discriminate.
  - reflexivity.
Defined.

Lemma default_rows_reproduce_lines_witness :
  map (CopyToTable.rowstr line_load)
    (Rows.rows VStr (map (fun body => body ++ [newline]) line_bodies))
  = map (fun body => body ++ [newline]) line_bodies.
Proof.
  refine (proj1 (proj2 (@default_rows_reproduce_lines sim value py_value
                          line_load VStr _ _ _) line_bodies _)).
  - reflexivity.
  - reflexivity.
  - reflexivity.
  - repeat constructor.
Defined.

End FurtherRuns.
